(** * dyn.tm.services.active_failover: HealthMonitor and ActiveFailover

    A shallow embedding of [src/dyn/tm/services/active_failover.py] and the
    properties of its two classes.

    Python values are an inductive type, instance dictionaries are
    insertion-ordered association lists, [HealthMonitor] instances live on a
    heap and are referred to by address (the owning [ActiveFailover] and its
    caller share the instance), and every method is a computation in a state
    and exception monad whose state also carries the trace of requests sent
    through the session and the replies the remote service will give.

    The collaborators of the module that are not in src/ (the session, the
    [APIObject] base class and the attribute descriptors of [dyn.core], and
    [Active] of [dyn.tm.utils]) are modelled from the specification; each of
    these definitions says so. The string conversions ([__str__],
    [__bytes__]) are left out. *)

From Stdlib Require Import ZArith String Ascii List Bool Lia DecimalString.
From stdpp Require Import base list strings.
Import ListNotations.
Local Open Scope string_scope.
Local Open Scope Z_scope.
Local Open Scope list_scope.

(** ** Python values *)

#[warnings="-register-all"]
Inductive pyval : Type :=
| PNone
| PBool (b : bool)
| PInt (n : Z)
| PStr (s : string)
| PList (items : list pyval)
| PDict (entries : list (string * pyval))
| PFun (name : string)
| PObj (addr : nat)
| PActive (v : pyval).

(** A [dict] with string keys, in insertion order: instance [__dict__]s,
    keyword arguments and JSON objects. *)
Definition dict : Type := list (string * pyval).

Inductive exn : Type :=
| ValueError
| TypeError
| KeyError
| AttributeError
| ValidationError
| SessionError
| NotModelled.

Module Dict.

Fixpoint get (k : string) (d : dict) : option pyval :=
  match d with
  | [] => None
  | (k', v) :: rest => if String.eqb k k' then Some v else get k rest
  end.

Definition has (k : string) (d : dict) : bool :=
  match get k d with Some _ => true | None => false end.

(** [d[k] = v]: an existing key keeps its position, a new one goes last. *)
Fixpoint set (k : string) (v : pyval) (d : dict) : dict :=
  match d with
  | [] => [(k, v)]
  | (k', v') :: rest =>
      if String.eqb k k' then (k', v) :: rest else (k', v') :: set k v rest
  end.

(** What is left of [d] after [d.pop(k)]. *)
Definition remove (k : string) (d : dict) : dict :=
  List.filter (fun kv => negb (String.eqb k (fst kv))) d.

Definition keys (d : dict) : list string := map fst d.

(** The invariant of a Python dict: no key occurs twice. *)
Definition wf (d : dict) : Prop := NoDup (keys d).

(** A run of assignments [d[k1] = v1; d[k2] = v2; ...]. *)
Definition assign (kvs : list (string * pyval)) (d : dict) : dict :=
  fold_left (fun acc kv => set (fst kv) (snd kv) acc) kvs d.

End Dict.

(** ** Builtins used by the module *)

Definition is_None (v : pyval) : bool :=
  match v with PNone => true | _ => false end.

(** [hasattr(val, '__call__')] *)
Definition callable (v : pyval) : bool :=
  match v with PFun _ => true | _ => false end.

(** [key.startswith('_')] *)
Definition startswith_underscore (key : string) : bool :=
  match key with
  | String c _ => Ascii.eqb c "_"%char
  | EmptyString => false
  end.

(** [key[1:]] *)
Definition drop_first (key : string) : string :=
  match key with
  | String _ rest => rest
  | EmptyString => EmptyString
  end.

(** The literals that occur in the module's tuples. *)
Inductive literal : Type :=
| LStr (s : string)
| LInt (n : Z)
| LBool (b : bool).

Definition Z_of_bool (b : bool) : Z := if b then 1 else 0.

(** [v == lit]: strings compare by content, [bool] is a subtype of [int]
    ([True == 1], [False == 0]), anything else is unequal. *)
Definition eq_literal (v : pyval) (lit : literal) : bool :=
  match v, lit with
  | PStr s, LStr t => String.eqb s t
  | PInt n, LInt m => Z.eqb n m
  | PInt n, LBool b => Z.eqb n (Z_of_bool b)
  | PBool a, LInt m => Z.eqb (Z_of_bool a) m
  | PBool a, LBool b => Bool.eqb a b
  | _, _ => false
  end.

(** [v in (lit1, lit2, ...)] *)
Definition in_tuple (v : pyval) (lits : list literal) : bool :=
  existsb (eq_literal v) lits.

(** ** State, exceptions and the session

    [heap] holds the [__dict__] of every [HealthMonitor] instance, [self_dict]
    the [__dict__] of the [ActiveFailover] under consideration, [trace] what
    has been sent so far, [replies] what the remote service answers to the
    requests still to come. *)

Inductive event : Type :=
| Request (path : pyval) (method : string) (args : pyval)
| Call (name : string).

Inductive reply : Type :=
| Body (response : pyval)
| Fault.

Record state : Type := mkState {
  heap : list dict;
  self_dict : dict;
  trace : list event;
  replies : list reply
}.

Inductive outcome (A : Type) : Type :=
| Ok (a : A) (s : state)
| Raise (e : exn) (s : state).
Arguments Ok {A} a s.
Arguments Raise {A} e s.

Definition M (A : Type) : Type := state -> outcome A.

Definition ret {A} (a : A) : M A := fun s => Ok a s.

Definition bind {A B} (m : M A) (k : A -> M B) : M B :=
  fun s => match m s with
           | Ok a s' => k a s'
           | Raise e s' => Raise e s'
           end.

Definition raise {A} (e : exn) : M A := fun s => Raise e s.

Notation "'do' x <- m ; k" := (bind m (fun x => k))
  (at level 10, x name, m at level 100, k at level 200).
Notation "'run' m ; k" := (bind m (fun _ => k))
  (at level 10, m at level 100, k at level 200).

Definition final {A} (o : outcome A) : state :=
  match o with Ok _ s => s | Raise _ s => s end.

(** The trace grows at its end. *)
Definition record (e : event) (s : state) : state :=
  mkState (heap s) (self_dict s) (trace s ++ [e]) (replies s).

Definition emit (e : event) : M unit := fun s => Ok tt (record e s).

(** Modelled from the spec: the session object of [dyn.tm.session] is not in
    src/. [execute(path, method, args) -> response] performs the request and
    returns the parsed body; a remote failure propagates as the session's
    error. The request is recorded, then the next reply is consumed. *)
Definition execute (path : pyval) (method : string) (args : pyval) : M pyval :=
  fun s =>
    let sent := trace s ++ [Request path method args] in
    match replies s with
    | Body r :: rest => Ok r (mkState (heap s) (self_dict s) sent rest)
    | Fault :: rest => Raise SessionError (mkState (heap s) (self_dict s) sent rest)
    | [] => Raise SessionError (mkState (heap s) (self_dict s) sent [])
    end.

(** [v[k]] for a string key [k]. *)
Definition getitem (v : pyval) (k : string) : M pyval :=
  match v with
  | PDict d => match Dict.get k d with
               | Some x => ret x
               | None => raise KeyError
               end
  | _ => raise TypeError
  end.

(** *** Instances on the heap *)

Definition new_object (d : dict) : M pyval :=
  fun s => Ok (PObj (length (heap s)))
              (mkState (heap s ++ [d]) (self_dict s) (trace s) (replies s)).

(** The [__dict__] of the instance [v] refers to; a value that is no
    instance has none of the attributes looked up on it. *)
Definition instance_dict (v : pyval) : M dict :=
  fun s => match v with
           | PObj a => match heap s !! a with
                       | Some d => Ok d s
                       | None => Raise AttributeError s
                       end
           | _ => Raise AttributeError s
           end.

(** [v.name = x]: on an instance the attribute is stored in its
    [__dict__]; [None], numbers, strings, lists and dicts accept no
    attribute. Attributes stored on a function or on an [Active] object are
    outside the model. *)
Definition setattr_instance (v : pyval) (name : string) (x : pyval) : M unit :=
  fun s => match v with
           | PObj a => match heap s !! a with
                       | Some d =>
                           Ok tt (mkState (<[a := Dict.set name x d]> (heap s))
                                          (self_dict s) (trace s) (replies s))
                       | None => Raise AttributeError s
                       end
           | PFun _ | PActive _ => Raise NotModelled s
           | _ => Raise AttributeError s
           end.

(** [self.name = x] on the [ActiveFailover]. *)
Definition setattr_self (name : string) (x : pyval) : M unit :=
  fun s => Ok tt (mkState (heap s) (Dict.set name x (self_dict s))
                          (trace s) (replies s)).

Definition get_self : M dict := fun s => Ok (self_dict s) s.

(** Plain attribute lookup in a [__dict__]. *)
Definition getattr (d : dict) (name : string) : M pyval :=
  match Dict.get name d with
  | Some v => ret v
  | None => raise AttributeError
  end.

(** Modelled from the spec: the attribute descriptors of [dyn.core]
    ([StringAttribute], [IntegerAttribute], [ValidatedAttribute],
    [ClassAttribute], [ImmutableAttribute], ...) are not in src/. Reading the
    public attribute [name] yields the internally tracked field, which is
    keyed by [name] with the internal underscore prefix, and [None] while
    that field has not been set. *)
Definition descriptor_get (name : string) (d : dict) : pyval :=
  match Dict.get (String "_"%char name) d with
  | Some v => v
  | None => PNone
  end.

(** [str(v)] as [str.format] inserts it, for the scalars; the text of a
    container or of an instance is outside the model. *)
Definition py_str (v : pyval) : option string :=
  match v with
  | PStr s => Some s
  | PNone => Some "None"
  | PBool true => Some "True"
  | PBool false => Some "False"
  | PInt n => Some (NilZero.string_of_int (Z.to_int n))
  | _ => None
  end.

(** ['/Failover/{0}/{1}/'.format(zone, fqdn)], which is also what the
    template ['/Failover/{zone}/{fqdn}/'] gives with keyword arguments. *)
Definition format_uri (zone fqdn : pyval) : M pyval :=
  match py_str zone, py_str fqdn with
  | Some z, Some f =>
      ret (PStr (String.append "/Failover/"
                   (String.append z (String.append "/" (String.append f "/")))))
  | _, _ => raise NotModelled
  end.

(** [sep.join(x)]: [x] is iterated, and every item has to be a [str]. *)
Fixpoint strings_of (items : list pyval) : option (list string) :=
  match items with
  | [] => Some []
  | PStr s :: rest =>
      match strings_of rest with
      | Some l => Some (s :: l)
      | None => None
      end
  | _ :: _ => None
  end.

Definition str_join (sep : string) (x : pyval) : M pyval :=
  match x with
  | PList items =>
      match strings_of items with
      | Some l => ret (PStr (String.concat sep l))
      | None => raise TypeError
      end
  | PStr s =>
      ret (PStr (String.concat sep
                   (map (fun c => String c EmptyString) (list_ascii_of_string s))))
  | PDict d => ret (PStr (String.concat sep (Dict.keys d)))
  | _ => raise TypeError
  end.

(** ** class HealthMonitor *)

Module HealthMonitor.

Definition protocol_validator : list literal :=
  [LStr "HTTP"; LStr "HTTPS"; LStr "PING"; LStr "SMTP"; LStr "TCP"].
Definition interval_validator : list literal :=
  [LInt 1; LInt 5; LInt 10; LInt 15].
Definition timeout_validator : list literal :=
  [LInt 10; LInt 15; LInt 25; LInt 30].

(** [__init__]: the base initialiser is called without arguments, and
    [_post] and [_get] of this class are no-ops, so it has no effect here;
    the nine arguments go straight to the private fields, then the two
    back-references are cleared. *)
Definition instance_fields (protocol interval retries timeout port path host
                            header expected : pyval) : dict :=
  Dict.assign
    [("_protocol", protocol); ("_interval", interval);
     ("_retries", retries); ("_timeout", timeout); ("_port", port);
     ("_path", path); ("_host", host); ("_header", header);
     ("_expected", expected); ("zone", PNone); ("fqdn", PNone)]
    [].

Definition init (protocol interval retries timeout port path host header
                 expected : pyval) : M pyval :=
  new_object
    (instance_fields protocol interval retries timeout port path host header
                     expected).

Definition parameters : list string :=
  ["protocol"; "interval"; "retries"; "timeout"; "port"; "path"; "host";
   "header"; "expected"].

Definition is_parameter (k : string) : bool :=
  existsb (String.eqb k) parameters.

Definition keyword (kw : dict) (name : string) : pyval :=
  match Dict.get name kw with Some v => v | None => PNone end.

(** [HealthMonitor] called with the keyword arguments [kw]: [kw] has to be
    a mapping, a key that is no parameter is an unexpected keyword
    argument, and [protocol] and [interval] have no default. *)
Definition call_kwargs (kw : pyval) : M pyval :=
  match kw with
  | PDict d =>
      if forallb is_parameter (Dict.keys d) then
        match Dict.get "protocol" d, Dict.get "interval" d with
        | Some protocol, Some interval =>
            init protocol interval (keyword d "retries")
                 (keyword d "timeout") (keyword d "port") (keyword d "path")
                 (keyword d "host") (keyword d "header")
                 (keyword d "expected")
        | _, _ => raise TypeError
        end
      else raise TypeError
  | _ => raise TypeError
  end.

Definition tracked (key : string) (val : pyval) : bool :=
  negb (is_None val) && negb (callable val) && startswith_underscore key.

(** [to_json], on the instance's [__dict__]. *)
Definition to_json (d : dict) : dict :=
  fold_left
    (fun json_blob kv =>
       if tracked (fst kv) (snd kv)
       then Dict.set (drop_first (fst kv)) (snd kv) json_blob
       else json_blob)
    d
    [("protocol", descriptor_get "protocol" d);
     ("interval", descriptor_get "interval" d)].

(** [v.to_json()] *)
Definition call_to_json (v : pyval) : M pyval :=
  do d <- instance_dict v;
  ret (PDict (to_json d)).

(** The [uri] property. *)
Definition uri (self : pyval) : M pyval :=
  do d <- instance_dict self;
  do zone <- getattr d "zone";
  if is_None zone then raise ValueError
  else
    do fqdn <- getattr d "fqdn";
    if is_None fqdn then raise ValueError
    else format_uri zone fqdn.

(** The [status] property. *)
Definition status (self : pyval) : M pyval :=
  do path <- uri self;
  do response <- execute path "GET" PNone;
  do data <- getitem response "data";
  getitem data "status".

(** Modelled from the spec: [ValidatedAttribute.__set__] of [dyn.core] is
    not in src/. An invalid enum value fails immediately at assignment time
    with a validation error; a valid one becomes the tracked field. *)
Definition validated_set (validator : list literal) (name : string)
                         (self value : pyval) : M unit :=
  if in_tuple value validator
  then setattr_instance self (String "_"%char name) value
  else raise ValidationError.

Definition set_protocol := validated_set protocol_validator "protocol".
Definition set_interval := validated_set interval_validator "interval".
Definition set_timeout := validated_set timeout_validator "timeout".

End HealthMonitor.

(** Modelled from the spec: [Active] of [dyn.tm.utils] is not in src/. It is
    the active-state representation wrapped around the remote [active]
    field, boolean-like: it counts as true for ['Y'] and [True], the values
    that stand for an active service. The other cases are Python's truth
    value testing. *)
Definition truthy (v : pyval) : bool :=
  match v with
  | PNone => false
  | PBool b => b
  | PInt n => negb (Z.eqb n 0)
  | PStr s => negb (String.eqb s "")
  | PList items => match items with [] => false | _ => true end
  | PDict entries => match entries with [] => false | _ => true end
  | PFun _ => true
  | PObj _ => true
  | PActive x => in_tuple x [LStr "Y"; LBool true]
  end.

(** ** class ActiveFailover *)

Module ActiveFailover.

Definition uri_template : string := "/Failover/{zone}/{fqdn}/".

(** [self.uri]: the instance attribute once [__init__] has stored it, the
    class attribute before. *)
Definition self_uri (d : dict) : pyval :=
  match Dict.get "uri" d with
  | Some v => v
  | None => PStr uri_template
  end.

(** Modelled from the spec: [APIObject] of [dyn.core] is not in src/. Its
    [_build] populates the fields from the response: every key of the data
    becomes the internally tracked field of that name. *)
Definition base_build (data : dict) : M unit :=
  fun s =>
    Ok tt (mkState (heap s)
             (Dict.assign
                (map (fun kv => (String "_"%char (fst kv), snd kv)) data)
                (self_dict s))
             (trace s) (replies s)).

(** [_build]. A response body is a mapping; [in] raises on a value that is
    no container, and the model rejects every other value alike. *)
Definition build (data : pyval) : M unit :=
  match data with
  | PDict d =>
      do d1 <- match Dict.get "monitor" d with
               | Some sub =>
                   do m <- HealthMonitor.call_kwargs sub;
                   run setattr_self "_monitor" m;
                   ret (Dict.remove "monitor" d)
               | None => ret d
               end;
      do d2 <- match Dict.get "active" d1 with
               | Some a =>
                   run setattr_self "_active" (PActive a);
                   ret (Dict.remove "active" d1)
               | None => ret d1
               end;
      base_build d2
  | _ => raise TypeError
  end.

(** Modelled from the spec: [APIObject._get] is not in src/. It fetches the
    resource with a GET on [self.uri] and rebuilds the local state from the
    body (through the [_build] of the instance's class). *)
Definition base_get : M unit :=
  do d <- get_self;
  do response <- execute (self_uri d) "GET" PNone;
  do data <- getitem response "data";
  build data.

(** Modelled from the spec: [APIObject._update] is not in src/. It submits
    the given fields with a PUT on [self.uri] and rebuilds the local state
    from the body. *)
Definition base_update (api_args : dict) : M unit :=
  do d <- get_self;
  do response <- execute (self_uri d) "PUT" (PDict api_args);
  do data <- getitem response "data";
  build data.

(** [__init__(zone, fqdn)] on a new instance. Modelled from the spec for the
    base initialiser, which is not in src/: without further arguments it
    leaves the object pending until it is created explicitly. *)
Definition init (zone fqdn : pyval) : M unit :=
  do u <- format_uri zone fqdn;
  fun s => Ok tt (mkState (heap s) [("uri", u)] (trace s) (replies s)).

(** The [api_args] property. *)
Definition api_args : M dict :=
  do d <- get_self;
  do monitor <- HealthMonitor.call_to_json (descriptor_get "monitor" d);
  ret [("address", descriptor_get "address" d);
       ("failover_mode", descriptor_get "failover_mode" d);
       ("failover_data", descriptor_get "failover_data" d);
       ("monitor", monitor);
       ("contact_nickname", descriptor_get "contact_nickname" d)].

(** [_post] *)
Definition post (address failover_mode failover_data monitor contact_nickname
                 auto_recover notify_events syslog_server syslog_port
                 syslog_ident syslog_facility ttl : pyval) : M unit :=
  run setattr_self "_address" address;
  run setattr_self "_failover_mode" failover_mode;
  run setattr_self "_failover_data" failover_data;
  run setattr_self "_monitor" monitor;
  do d1 <- get_self;
  do m1 <- getattr d1 "_monitor";
  run setattr_instance m1 "zone" (descriptor_get "zone" d1);
  do m2 <- getattr d1 "_monitor";
  run setattr_instance m2 "fqdn" (descriptor_get "fqdn" d1);
  run setattr_self "_contact_nickname" contact_nickname;
  run setattr_self "_auto_recover" auto_recover;
  run setattr_self "_notify_events" notify_events;
  run setattr_self "_syslog_server" syslog_server;
  run setattr_self "_syslog_port" syslog_port;
  run setattr_self "_syslog_ident" syslog_ident;
  run setattr_self "_syslog_facility" syslog_facility;
  run setattr_self "_ttl" ttl;
  do d2 <- get_self;
  do payload <- api_args;
  do response <- execute (self_uri d2) "POST" (PDict payload);
  do data <- getitem response "data";
  build data.

(** [key, val = item] for an item that is a string: a string unpacks into
    its characters, so only one of length two fits the two targets. *)
Definition unpack_pair (item : string) : M (string * pyval) :=
  match item with
  | String a (String b EmptyString) =>
      ret (String a EmptyString, PStr (String b EmptyString))
  | _ => raise ValueError
  end.

(** [for key, val in self.api_args: ...]: iterating a dict yields its
    keys. *)
Fixpoint merge_loop (items : list string) (api_args : dict) : M dict :=
  match items with
  | [] => ret api_args
  | item :: rest =>
      do kv <- unpack_pair item;
      if Dict.has (fst kv) api_args
      then merge_loop rest api_args
      else merge_loop rest (Dict.set (fst kv) (snd kv) api_args)
  end.

Definition serialize_monitor (api_args : dict) : M dict :=
  match Dict.get "monitor" api_args with
  | Some m =>
      do js <- HealthMonitor.call_to_json m;
      ret (Dict.set "monitor" js api_args)
  | None => ret api_args
  end.

Definition serialize_notify_events (api_args : dict) : M dict :=
  match Dict.get "notify_events" api_args with
  | Some l =>
      do joined <- str_join ", " l;
      ret (Dict.set "notify_events" joined api_args)
  | None => ret api_args
  end.

(** [_update], called with the keyword arguments [api_args]. *)
Definition update (api_args : dict) : M unit :=
  do a1 <- serialize_monitor api_args;
  do a2 <- serialize_notify_events a1;
  do own <- ActiveFailover.api_args;
  do a3 <- merge_loop (Dict.keys own) a2;
  base_update a3.

(** [activate] and [deactivate]; entering either of them is recorded in the
    trace, so that the calls can be counted. *)
Definition activate : M unit :=
  run emit (Call "activate");
  update [("activate", PBool true)].

Definition deactivate : M unit :=
  run emit (Call "deactivate");
  update [("deactivate", PBool true)].

(** The [active] property, read. *)
Definition active_get : M pyval :=
  run base_get;
  do d <- get_self;
  getattr d "_active".

Definition deactivate_values : list literal := [LStr "N"; LBool false].
Definition activate_values : list literal := [LStr "Y"; LBool true].

(** The [active] property, written. [and] evaluates its right operand only
    when the left one is true. *)
Definition active_set (value : pyval) : M unit :=
  do wants_off <- (if in_tuple value deactivate_values
                   then do a <- active_get; ret (truthy a)
                   else ret false);
  if wants_off then deactivate
  else
    do wants_on <- (if in_tuple value activate_values
                    then do a <- active_get; ret (negb (truthy a))
                    else ret false);
    if wants_on then activate else ret tt.

End ActiveFailover.

(** ** Vocabulary of the properties *)

Module ToJson.

Import HealthMonitor.

(** The loop of [to_json] from an arbitrary [json_blob]. *)
Definition collect (items : dict) (json_blob : dict) : dict :=
  fold_left
    (fun json_blob kv =>
       if tracked (fst kv) (snd kv)
       then Dict.set (drop_first (fst kv)) (snd kv) json_blob
       else json_blob)
    items json_blob.

(** The value the loop leaves at key [f]: that of the last tracked item
    whose key is [f] behind the underscore. *)
Fixpoint last_tracked (f : string) (items : dict) : option pyval :=
  match items with
  | [] => None
  | (k, v) :: rest =>
      match last_tracked f rest with
      | Some x => Some x
      | None =>
          if tracked k v && String.eqb (drop_first k) f then Some v else None
      end
  end.

End ToJson.

(** The [__dict__]s a [HealthMonitor] goes through as long as [_update] is
    not called on it: built by [__init__], then changed by the owner's
    assignments to the two back-references and by assignments to the nine
    tracked fields. *)
Inductive monitor_state : dict -> Prop :=
| ms_init protocol interval retries timeout port path host header expected :
    monitor_state
      (HealthMonitor.instance_fields protocol interval retries timeout port
                                     path host header expected)
| ms_zone d v : monitor_state d -> monitor_state (Dict.set "zone" v d)
| ms_fqdn d v : monitor_state d -> monitor_state (Dict.set "fqdn" v d)
| ms_field d name v :
    In name HealthMonitor.parameters ->
    monitor_state d ->
    monitor_state (Dict.set (String "_"%char name) v d).

(** *** Counting what a run has sent *)

Definition is_read (e : event) : bool :=
  match e with
  | Request _ method _ => String.eqb method "GET"
  | Call _ => false
  end.

Definition is_write (e : event) : bool :=
  match e with
  | Request _ method _ => negb (String.eqb method "GET")
  | Call _ => false
  end.

Definition is_call (name : string) (e : event) : bool :=
  match e with
  | Call n => String.eqb n name
  | Request _ _ _ => false
  end.

Definition count (p : event -> bool) (evs : list event) : nat :=
  length (List.filter p evs).

(** A computation that leaves the state as it found it, whatever its
    outcome. *)
Definition readonly {A} (m : M A) : Prop := forall s, final (m s) = s.

(** A computation that sends nothing and calls neither [activate] nor
    [deactivate]. *)
Definition silent {A} (m : M A) : Prop :=
  forall s, trace (final (m s)) = trace s.

(** The round trip of [_build]: building from the body [data], whose
    [monitor] sub-object is [sub], succeeds; the [ActiveFailover] then owns a
    [HealthMonitor] whose tracked fields are the values at the sub-object's
    keys; and an [active] field of the body is wrapped in [Active]. *)
Definition round_trip (data sub : dict) (s : state) : Prop :=
  exists s' a dm,
    ActiveFailover.build (PDict data) s = Ok tt s' /\
    descriptor_get "monitor" (self_dict s') = PObj a /\
    heap s' !! a = Some dm /\
    (forall k v,
        Dict.get k sub = Some v -> Dict.get (String "_"%char k) dm = Some v) /\
    (forall x,
        Dict.get "active" data = Some x ->
        Dict.get "_active" (self_dict s') = Some (PActive x)).

(** *** A service on example.com, for the concrete runs *)

Module Scenario.

Definition monitor_json : pyval :=
  PDict [("protocol", PStr "HTTP"); ("interval", PInt 5)].

(** The body the remote service answers with, [active] being its current
    activation state. *)
Definition response (active : pyval) : pyval :=
  PDict
    [("status", PStr "success");
     ("data",
      PDict
        [("zone", PStr "example.com"); ("fqdn", PStr "www.example.com");
         ("address", PStr "192.0.2.1"); ("failover_mode", PStr "ip");
         ("failover_data", PStr "192.0.2.2");
         ("contact_nickname", PStr "owner");
         ("monitor", monitor_json); ("active", active)])].

(** [svc = ActiveFailover('example.com', 'www.example.com')], then the
    creation [svc._post('192.0.2.1', 'ip', '192.0.2.2',
    HealthMonitor('HTTP', 5), 'owner')]. *)
Definition create : M unit :=
  run ActiveFailover.init (PStr "example.com") (PStr "www.example.com");
  do m <- HealthMonitor.init (PStr "HTTP") (PInt 5) PNone PNone PNone PNone
                             PNone PNone PNone;
  ActiveFailover.post (PStr "192.0.2.1") (PStr "ip") (PStr "192.0.2.2") m
                      (PStr "owner") PNone PNone PNone PNone PNone PNone
                      PNone.

Definition start (answers : list reply) : state := mkState [] [] [] answers.

(** The state once the service is created, [later] being the answers to
    the requests that follow. *)
Definition created (later : list reply) : state :=
  final (create (start (Body (response (PStr "Y")) :: later))).

End Scenario.

(** ** The rest of the module *)

(** [HealthMonitor._post], and [_get], which is the same function: a monitor
    cannot be created or fetched on its own, both do nothing. *)
Definition HealthMonitor_post : M unit := ret tt.
Definition HealthMonitor_get : M unit := HealthMonitor_post.




(** *** Vocabulary of the further properties *)

(** What [to_json] lets through: neither [None] nor callable. *)
Definition json_ok (v : pyval) : bool := negb (is_None v) && negb (callable v).

(** The optional arguments of the constructor, by name, in the order in
    which [__init__] stores them. *)
Definition optional_items (retries timeout port path host header
                           expected : pyval) : dict :=
  [("retries", retries); ("timeout", timeout); ("port", port); ("path", path);
   ("host", host); ("header", header); ("expected", expected)].

(** The keyword arguments [HealthMonitor] can be called with: a mapping with
    [protocol] and [interval] and no key that is not a parameter. *)
Definition accepts_kwargs (kw : pyval) : bool :=
  match kw with
  | PDict d =>
      forallb HealthMonitor.is_parameter (Dict.keys d) &&
      Dict.has "protocol" d && Dict.has "interval" d
  | _ => false
  end.

(** The values that are no object at all: they take no attribute. *)
Definition is_plain (v : pyval) : bool :=
  match v with
  | PObj _ | PFun _ | PActive _ => false
  | _ => true
  end.

(** A computation that leaves the [uri] attribute of the [ActiveFailover]
    alone, whatever its outcome. *)
Definition keeps_uri {A} (m : M A) : Prop :=
  forall s, Dict.get "uri" (self_dict (final (m s))) =
            Dict.get "uri" (self_dict s).

(** The fields [_post] stores before it sends anything. *)
Definition posted_fields (address failover_mode failover_data monitor
                          contact_nickname auto_recover notify_events
                          syslog_server syslog_port syslog_ident
                          syslog_facility ttl : pyval) : dict :=
  [("_address", address); ("_failover_mode", failover_mode);
   ("_failover_data", failover_data); ("_monitor", monitor);
   ("_contact_nickname", contact_nickname); ("_auto_recover", auto_recover);
   ("_notify_events", notify_events); ("_syslog_server", syslog_server);
   ("_syslog_port", syslog_port); ("_syslog_ident", syslog_ident);
   ("_syslog_facility", syslog_facility); ("_ttl", ttl)].

(** * Properties *)

(** ** Dictionaries *)

Module DictFacts.

Lemma get_set_eq k v d : Dict.get k (Dict.set k v d) = Some v.
Proof.
  induction d as [|[k' v'] d IH]; simpl.
  - now rewrite String.eqb_refl.
  - destruct (String.eqb k k') eqn:E; simpl; now rewrite E.
Qed.

Lemma get_set_ne k k' v d :
  k <> k' -> Dict.get k' (Dict.set k v d) = Dict.get k' d.
Proof.
  intros Hne. induction d as [|[k0 v0] d IH]; simpl.
  - destruct (String.eqb k' k) eqn:E; [|reflexivity].
    apply String.eqb_eq in E. congruence.
  - destruct (String.eqb k k0) eqn:E; simpl.
    + apply String.eqb_eq in E. subst k0.
      destruct (String.eqb k' k) eqn:E'; [|reflexivity].
      apply String.eqb_eq in E'. congruence.
    + now rewrite IH.
Qed.

Lemma get_set k k' v d :
  Dict.get k' (Dict.set k v d) =
  if String.eqb k k' then Some v else Dict.get k' d.
Proof.
  destruct (String.eqb k k') eqn:E.
  - apply String.eqb_eq in E. subst. apply get_set_eq.
  - apply String.eqb_neq in E. now apply get_set_ne.
Qed.

Lemma get_remove_eq k d : Dict.get k (Dict.remove k d) = None.
Proof.
  unfold Dict.remove.
  induction d as [|[k' v'] d IH]; simpl; [reflexivity|].
  destruct (String.eqb k k') eqn:E; simpl; [assumption|].
  now rewrite E.
Qed.

Lemma get_remove_ne k k' d :
  k <> k' -> Dict.get k' (Dict.remove k d) = Dict.get k' d.
Proof.
  intros Hne. unfold Dict.remove.
  induction d as [|[k0 v0] d IH]; simpl; [reflexivity|].
  destruct (String.eqb k k0) eqn:E; simpl.
  - apply String.eqb_eq in E. subst k0.
    destruct (String.eqb k' k) eqn:E'; [|assumption].
    apply String.eqb_eq in E'. congruence.
  - now rewrite IH.
Qed.

Lemma get_In k v d : Dict.get k d = Some v -> In (k, v) d.
Proof.
  induction d as [|[k' v'] d IH]; simpl; [discriminate|].
  destruct (String.eqb k k') eqn:E.
  - apply String.eqb_eq in E. intros [= ->]. left. now subst.
  - intros H. right. now apply IH.
Qed.

Lemma get_None_keys k d : Dict.get k d = None -> ~ In k (Dict.keys d).
Proof.
  induction d as [|[k' v'] d IH]; simpl; [tauto|].
  destruct (String.eqb k k') eqn:E; [discriminate|].
  apply String.eqb_neq in E. intros H [Heq|Hin]; [congruence|].
  now apply IH.
Qed.

Lemma In_keys k v (d : dict) : In (k, v) d -> In k (Dict.keys d).
Proof. intros H. unfold Dict.keys. now apply (in_map fst) in H. Qed.

(** In a well-formed dict an item is what [get] finds at its key. *)
Lemma In_get k v d : Dict.wf d -> In (k, v) d -> Dict.get k d = Some v.
Proof.
  unfold Dict.wf.
  induction d as [|[k' v'] d IH]; simpl; [tauto|].
  intros Hnd [Heq|Hin].
  - injection Heq as -> ->. now rewrite String.eqb_refl.
  - apply NoDup_cons in Hnd as [Hnotin Hnd].
    destruct (String.eqb k k') eqn:E.
    + apply String.eqb_eq in E. subst k'.
      exfalso. apply Hnotin, list_elem_of_In. now apply In_keys with v.
    + now apply IH.
Qed.

Lemma keys_set k v d :
  Dict.keys (Dict.set k v d) =
  if Dict.has k d then Dict.keys d else Dict.keys d ++ [k].
Proof.
  unfold Dict.has.
  induction d as [|[k' v'] d IH]; simpl; [reflexivity|].
  destruct (String.eqb k k') eqn:E; simpl; [reflexivity|].
  rewrite IH. now destruct (Dict.get k d).
Qed.

Lemma wf_set k v d : Dict.wf d -> Dict.wf (Dict.set k v d).
Proof.
  unfold Dict.wf. intros Hwf. rewrite keys_set.
  unfold Dict.has. destruct (Dict.get k d) eqn:E; [assumption|].
  apply get_None_keys in E.
  apply NoDup_app. repeat split; [assumption| |apply NoDup_singleton].
  intros x Hx Hx'. apply list_elem_of_In in Hx, Hx'.
  destruct Hx' as [<-|[]]. now apply E.
Qed.

Lemma wf_assign kvs d : Dict.wf d -> Dict.wf (Dict.assign kvs d).
Proof.
  unfold Dict.assign. revert d.
  induction kvs as [|[k v] kvs IH]; simpl; intros d Hwf; [assumption|].
  apply IH. now apply wf_set.
Qed.

End DictFacts.

(** ** HealthMonitor.to_json *)

Module ToJsonFacts.

Import HealthMonitor DictFacts ToJson.

Lemma to_json_collect d :
  to_json d =
  collect d [("protocol", descriptor_get "protocol" d);
             ("interval", descriptor_get "interval" d)].
Proof. reflexivity. Qed.

Lemma tracked_inv k v :
  tracked k v = true ->
  k = String "_"%char (drop_first k) /\ v <> PNone /\ callable v = false.
Proof.
  unfold tracked. intros H.
  apply andb_prop in H as [H Hk]. apply andb_prop in H as [Hn Hc].
  repeat split.
  - destruct k as [|c k]; simpl in *; [discriminate|].
    apply Ascii.eqb_eq in Hk. now subst.
  - intros ->. discriminate.
  - now destruct (callable v).
Qed.

Lemma tracked_intro f v :
  v <> PNone -> callable v = false -> tracked (String "_"%char f) v = true.
Proof.
  intros Hn Hc. unfold tracked. rewrite Hc. simpl.
  destruct v; simpl; congruence.
Qed.

Lemma get_collect f items : forall json_blob,
  Dict.get f (collect items json_blob) =
  match last_tracked f items with
  | Some v => Some v
  | None => Dict.get f json_blob
  end.
Proof.
  induction items as [|[k v] items IH]; intros json_blob; simpl.
  - reflexivity.
  - unfold collect in *. simpl. rewrite IH.
    destruct (last_tracked f items); [reflexivity|].
    destruct (tracked k v); simpl; [|reflexivity].
    rewrite get_set. now destruct (String.eqb (drop_first k) f).
Qed.

Lemma last_tracked_sound f items v :
  last_tracked f items = Some v ->
  In (String "_"%char f, v) items /\ tracked (String "_"%char f) v = true.
Proof.
  induction items as [|[k x] items IH]; simpl; [discriminate|].
  destruct (last_tracked f items) as [y|].
  - intros [= ->]. destruct IH as [Hin Ht]; [reflexivity|]. auto.
  - destruct (tracked k x) eqn:Ht; simpl; [|discriminate].
    destruct (String.eqb (drop_first k) f) eqn:E; [|discriminate].
    intros [= ->]. apply String.eqb_eq in E.
    destruct (tracked_inv _ _ Ht) as [Hk _].
    rewrite E in Hk. subst k. auto.
Qed.

Lemma last_tracked_complete f items v :
  Dict.wf items ->
  In (String "_"%char f, v) items ->
  tracked (String "_"%char f) v = true ->
  last_tracked f items = Some v.
Proof.
  intros Hwf Hin Ht.
  destruct (last_tracked f items) as [y|] eqn:E.
  - apply last_tracked_sound in E as [Hin' _].
    apply (In_get _ _ _ Hwf) in Hin. apply (In_get _ _ _ Hwf) in Hin'.
    congruence.
  - exfalso. clear Hwf.
    induction items as [|[k x] items IH]; simpl in *; [tauto|].
    destruct (last_tracked f items); [discriminate|].
    destruct Hin as [Heq|Hin]; [|now apply IH].
    injection Heq as -> ->. rewrite Ht in E. simpl in E.
    now rewrite String.eqb_refl in E.
Qed.

(** A tracked field is found in the result under its name without the
    underscore. *)
Lemma to_json_get_tracked f v d :
  Dict.wf d ->
  In (String "_"%char f, v) d -> v <> PNone -> callable v = false ->
  Dict.get f (to_json d) = Some v.
Proof.
  intros Hwf Hin Hn Hc. rewrite to_json_collect, get_collect.
  now rewrite (last_tracked_complete f d v Hwf Hin (tracked_intro f v Hn Hc)).
Qed.

(** Every key of the result is [protocol], [interval], or a tracked field
    without its underscore. *)
Lemma to_json_key f v d :
  Dict.get f (to_json d) = Some v ->
  f = "protocol" \/ f = "interval" \/
  (In (String "_"%char f, v) d /\ tracked (String "_"%char f) v = true).
Proof.
  rewrite to_json_collect, get_collect.
  destruct (last_tracked f d) as [y|] eqn:E.
  - intros [= ->]. right. right. now apply last_tracked_sound.
  - simpl.
    destruct (String.eqb f "protocol") eqn:E1;
      [apply String.eqb_eq in E1; auto|].
    destruct (String.eqb f "interval") eqn:E2;
      [apply String.eqb_eq in E2; auto|].
    discriminate.
Qed.

(** Assigning an attribute whose name has no leading underscore leaves
    [to_json] as it was. *)
Lemma collect_set_public name x items : forall json_blob,
  startswith_underscore name = false ->
  collect (Dict.set name x items) json_blob = collect items json_blob.
Proof.
  intros json_blob Hname. revert json_blob.
  assert (Hnt : forall y, tracked name y = false).
  { intros y. unfold tracked. rewrite Hname. apply andb_false_r. }
  induction items as [|[k v] items IH]; intros json_blob; simpl.
  - unfold collect. simpl. now rewrite Hnt.
  - destruct (String.eqb name k) eqn:E.
    + apply String.eqb_eq in E. subst k.
      unfold collect. simpl. now rewrite !Hnt.
    + unfold collect in *. simpl. apply IH.
Qed.

Lemma descriptor_get_set_public name x f d :
  startswith_underscore name = false ->
  descriptor_get f (Dict.set name x d) = descriptor_get f d.
Proof.
  intros Hname. unfold descriptor_get. rewrite get_set_ne; [reflexivity|].
  intros ->. simpl in Hname. discriminate.
Qed.

Lemma to_json_set_public name x d :
  startswith_underscore name = false ->
  to_json (Dict.set name x d) = to_json d.
Proof.
  intros Hname. rewrite !to_json_collect.
  rewrite !descriptor_get_set_public by assumption.
  now apply collect_set_public.
Qed.

End ToJsonFacts.

Import HealthMonitor DictFacts ToJson ToJsonFacts.

(** C6. For every HealthMonitor (an instance [__dict__] [d], in which no key
    occurs twice), the mapping returned by [to_json()] always contains the
    keys [protocol] and [interval]; it contains every internally tracked
    field [_f] whose value is neither [None] nor callable, under the key [f]
    without the underscore; it has no key for any other field that is unset,
    that is, whose value is [None]; and it contains nothing else: whatever is
    found under a key other than [protocol] and [interval] is such a tracked
    field, so [None] can only show up under the two keys that are always
    there. *)
Theorem to_json_contents (d : dict) :
  Dict.wf d ->
  (Dict.has "protocol" (to_json d) = true /\
   Dict.has "interval" (to_json d) = true) /\
  (forall f v,
      In (String "_"%char f, v) d -> v <> PNone -> callable v = false ->
      Dict.get f (to_json d) = Some v) /\
  (forall f,
      In (String "_"%char f, PNone) d -> f <> "protocol" -> f <> "interval" ->
      Dict.has f (to_json d) = false) /\
  (forall f v,
      Dict.get f (to_json d) = Some v -> f <> "protocol" -> f <> "interval" ->
      In (String "_"%char f, v) d /\ v <> PNone /\ callable v = false).
Proof.
  intros Hwf. split; [split|split; [|split]].
  - unfold Dict.has. rewrite to_json_collect, get_collect.
    now destruct (last_tracked "protocol" d).
  - unfold Dict.has. rewrite to_json_collect, get_collect.
    now destruct (last_tracked "interval" d).
  - intros f v Hin Hn Hc. now apply to_json_get_tracked.
  - intros f Hin Hp Hi. unfold Dict.has.
    destruct (Dict.get f (to_json d)) as [x|] eqn:E; [|reflexivity].
    apply to_json_key in E as [->|[->|[Hin' Ht]]]; [tauto|tauto|].
    apply tracked_inv in Ht as (_ & Hx & _).
    apply (In_get _ _ _ Hwf) in Hin, Hin'. congruence.
  - intros f v Hget Hp Hi.
    apply to_json_key in Hget as [->|[->|[Hin Ht]]]; [tauto|tauto|].
    apply tracked_inv in Ht as (_ & Hn & Hc). auto.
Qed.

Lemma to_json_contents_witness :
  let d := instance_fields (PStr "HTTP") (PInt 5) PNone (PInt 10) PNone PNone
                           PNone PNone PNone in
  Dict.wf d /\
  Dict.get "timeout" (to_json d) = Some (PInt 10) /\
  Dict.has "retries" (to_json d) = false.
Proof.
  intros d.
  assert (Hwf : Dict.wf d).
  { unfold Dict.wf. apply (bool_decide_unpack _). vm_compute. exact I. }
  destruct (to_json_contents d Hwf) as (_ & Hin & Hout & _).
  split; [exact Hwf|]. split.
  - apply Hin; [|discriminate|reflexivity].
    vm_compute. tauto.
  - apply Hout; [|discriminate|discriminate].
    vm_compute. tauto.
Defined.








(** ** Effects of the building blocks *)

Module Effects.

Lemma readonly_ret {A} (a : A) : readonly (ret a).
Proof. intros s. reflexivity. Qed.

Lemma readonly_raise {A} e : readonly (@raise A e).
Proof. intros s. reflexivity. Qed.

Lemma readonly_bind {A B} (m : M A) (k : A -> M B) :
  readonly m -> (forall a, readonly (k a)) -> readonly (bind m k).
Proof.
  intros Hm Hk s. unfold bind. specialize (Hm s).
  destruct (m s) as [a s'|e s']; simpl in Hm; subst; [apply Hk|reflexivity].
Qed.

Lemma readonly_get_self : readonly get_self.
Proof. intros s. reflexivity. Qed.

Lemma readonly_instance_dict v : readonly (instance_dict v).
Proof.
  intros s. unfold instance_dict.
  destruct v; try reflexivity. now destruct (heap s !! addr).
Qed.

Lemma readonly_getattr d name : readonly (getattr d name).
Proof. intros s. unfold getattr. now destruct (Dict.get name d). Qed.

Lemma readonly_getitem v k : readonly (getitem v k).
Proof.
  intros s. unfold getitem. destruct v; try reflexivity.
  now destruct (Dict.get k entries).
Qed.

Lemma readonly_format_uri zone fqdn : readonly (format_uri zone fqdn).
Proof.
  intros s. unfold format_uri.
  destruct (py_str zone); [|reflexivity]. now destruct (py_str fqdn).
Qed.

Lemma readonly_str_join sep x : readonly (str_join sep x).
Proof.
  intros s. unfold str_join. destruct x; try reflexivity.
  now destruct (strings_of items).
Qed.

Lemma readonly_silent {A} (m : M A) : readonly m -> silent m.
Proof. intros H s. now rewrite H. Qed.

Lemma silent_ret {A} (a : A) : silent (ret a).
Proof. intros s. reflexivity. Qed.

Lemma silent_raise {A} e : silent (@raise A e).
Proof. intros s. reflexivity. Qed.

Lemma silent_bind {A B} (m : M A) (k : A -> M B) :
  silent m -> (forall a, silent (k a)) -> silent (bind m k).
Proof.
  intros Hm Hk s. unfold bind. specialize (Hm s).
  destruct (m s) as [a s'|e s']; simpl in *; [|assumption].
  now rewrite Hk.
Qed.

Lemma silent_new_object d : silent (new_object d).
Proof. intros s. reflexivity. Qed.

Lemma silent_setattr_self name x : silent (setattr_self name x).
Proof. intros s. reflexivity. Qed.

Lemma silent_setattr_instance v name x : silent (setattr_instance v name x).
Proof.
  intros s. unfold setattr_instance.
  destruct v; try reflexivity. now destruct (heap s !! addr).
Qed.

(** What follows a computation adds nothing to the trace when it is
    silent. *)
Lemma trace_bind_silent {A B} (m : M A) (k : A -> M B) s :
  (forall a, silent (k a)) ->
  trace (final (bind m k s)) = trace (final (m s)).
Proof.
  intros Hk. unfold bind.
  destruct (m s) as [a s'|e s']; simpl; [apply Hk|reflexivity].
Qed.

Lemma trace_execute path method args s :
  trace (final (execute path method args s)) =
  trace s ++ [Request path method args].
Proof. unfold execute. now destruct (replies s) as [|[r|] rest]. Qed.

(** A computation that always raises, after one that leaves the state
    alone, raises in the state it started from. *)
Lemma raises_after_readonly {A B} (m : M A) (k : A -> M B) :
  readonly m ->
  (forall a s, exists e, k a s = Raise e s) ->
  forall s, exists e, bind m k s = Raise e s.
Proof.
  intros Hm Hk s. unfold bind. specialize (Hm s).
  destruct (m s) as [a s'|e s']; simpl in Hm; subst; [apply Hk|eauto].
Qed.

End Effects.

Create HintDb effects.
#[export] Hint Resolve Effects.readonly_ret Effects.readonly_raise
  Effects.readonly_bind Effects.readonly_get_self
  Effects.readonly_instance_dict Effects.readonly_getattr
  Effects.readonly_getitem Effects.readonly_format_uri
  Effects.readonly_str_join Effects.silent_ret Effects.silent_raise
  Effects.silent_bind Effects.silent_new_object Effects.silent_setattr_self
  Effects.silent_setattr_instance : effects.

(** ** ActiveFailover: what its methods send *)

Module ActiveFailoverFacts.

Import ActiveFailover Effects.

Lemma readonly_call_to_json v : readonly (call_to_json v).
Proof. unfold call_to_json. auto with effects. Qed.

Lemma readonly_api_args : readonly api_args.
Proof.
  unfold api_args. pose proof readonly_call_to_json. auto 6 with effects.
Qed.

Lemma readonly_serialize_monitor a : readonly (serialize_monitor a).
Proof.
  unfold serialize_monitor. pose proof readonly_call_to_json.
  destruct (Dict.get "monitor" a); auto with effects.
Qed.

Lemma readonly_serialize_notify_events a :
  readonly (serialize_notify_events a).
Proof.
  unfold serialize_notify_events.
  destruct (Dict.get "notify_events" a); auto with effects.
Qed.

(** The property always starts with the key [address]. *)
Lemma api_args_keys s own s' :
  api_args s = Ok own s' ->
  s' = s /\
  Dict.keys own =
  ["address"; "failover_mode"; "failover_data"; "monitor";
   "contact_nickname"].
Proof.
  intros H. pose proof (readonly_api_args s) as Hs. rewrite H in Hs.
  simpl in Hs. split; [assumption|].
  revert H. unfold api_args, bind, get_self.
  destruct (call_to_json _ s) as [js s1|e s1]; [|discriminate].
  unfold ret. intros [= <- _]. reflexivity.
Qed.

(** The loop stops at its first item: [address] has seven characters. *)
Lemma merge_loop_address rest a s :
  merge_loop ("address" :: rest) a s = Raise ValueError s.
Proof. reflexivity. Qed.

(** [_update] never gets as far as the base's [_update]: it raises and
    leaves the state, and with it the trace, as they were. *)
Lemma update_always_raises a s : exists e, update a s = Raise e s.
Proof.
  revert s. unfold update.
  apply raises_after_readonly; [apply readonly_serialize_monitor|].
  intros a1. apply raises_after_readonly;
    [apply readonly_serialize_notify_events|].
  intros a2 s. unfold bind at 1.
  destruct (api_args s) as [own s'|e s'] eqn:E.
  - apply api_args_keys in E as [-> Hkeys]. rewrite Hkeys.
    unfold bind. rewrite merge_loop_address. eauto.
  - pose proof (readonly_api_args s) as Hs. rewrite E in Hs.
    simpl in Hs. subst. eauto.
Qed.

Lemma activate_raises s :
  exists e, activate s = Raise e (record (Call "activate") s).
Proof.
  unfold activate, bind, emit.
  destruct (update_always_raises [("activate", PBool true)]
              (record (Call "activate") s)) as [e He].
  rewrite He. eauto.
Qed.

Lemma deactivate_raises s :
  exists e, deactivate s = Raise e (record (Call "deactivate") s).
Proof.
  unfold deactivate, bind, emit.
  destruct (update_always_raises [("deactivate", PBool true)]
              (record (Call "deactivate") s)) as [e He].
  rewrite He. eauto.
Qed.

Lemma silent_init p i r t po pa h he e :
  silent (HealthMonitor.init p i r t po pa h he e).
Proof. unfold HealthMonitor.init. auto with effects. Qed.

Lemma silent_call_kwargs kw : silent (call_kwargs kw).
Proof.
  unfold call_kwargs. pose proof silent_init.
  destruct kw; auto with effects.
  destruct (forallb is_parameter (Dict.keys entries)); auto with effects.
  destruct (Dict.get "protocol" entries); auto with effects.
  destruct (Dict.get "interval" entries); auto with effects.
Qed.

Lemma silent_base_build data : silent (base_build data).
Proof. intros s. reflexivity. Qed.

Lemma silent_build data : silent (build data).
Proof.
  unfold build. pose proof silent_call_kwargs. pose proof silent_base_build.
  destruct data; auto with effects.
  apply silent_bind.
  - destruct (Dict.get "monitor" entries); auto 6 with effects.
  - intros d1. apply silent_bind; [|auto].
    destruct (Dict.get "active" d1); auto 6 with effects.
Qed.

(** Reading [active] sends one GET on the resource path, whatever the
    outcome. *)
Lemma active_get_trace s :
  trace (final (active_get s)) =
  trace s ++ [Request (self_uri (self_dict s)) "GET" PNone].
Proof.
  unfold active_get.
  rewrite trace_bind_silent
    by (intros; apply readonly_silent; auto with effects).
  unfold base_get. unfold bind at 1, get_self at 1.
  rewrite trace_bind_silent.
  - apply trace_execute.
  - intros response. apply silent_bind.
    + apply readonly_silent, readonly_getitem.
    + apply silent_build.
Qed.

(** No value asks for both activation and deactivation. *)
Lemma activate_not_deactivate value :
  in_tuple value activate_values = true ->
  in_tuple value deactivate_values = false.
Proof.
  unfold in_tuple, activate_values, deactivate_values.
  destruct value as [|b|n|x| | | | |]; simpl; try discriminate.
  - now destruct b.
  - rewrite !orb_false_r. intros H%Z.eqb_eq. now subst.
  - rewrite !orb_false_r. intros H%String.eqb_eq. now subst.
Qed.

End ActiveFailoverFacts.

Import ActiveFailover Effects ActiveFailoverFacts.

(** C10. For every value outside both recognised sets, neither equal to
    ['Y'] or [True] nor equal to ['N'] or [False], assigning it to
    [ActiveFailover.active] raises nothing, calls neither [activate()] nor
    [deactivate()], sends nothing (not even the comparison read) and leaves
    the state as it was. *)
Theorem active_set_unrecognised (value : pyval) (s : state) :
  in_tuple value activate_values = false ->
  in_tuple value deactivate_values = false ->
  active_set value s = Ok tt s.
Proof.
  intros Hon Hoff. unfold active_set. now rewrite Hon, Hoff.
Qed.

Lemma active_set_unrecognised_witness :
  (in_tuple (PStr "yes") activate_values = false /\
   in_tuple (PStr "yes") deactivate_values = false) /\
  active_set (PStr "yes") (Scenario.created []) = Ok tt (Scenario.created []).
Proof.
  split; [split; reflexivity|].
  apply (active_set_unrecognised (PStr "yes")); reflexivity.
Defined.

(** C5. For every ActiveFailover and every recognised value, when the read
    of [active] that the assignment performs succeeds with current state
    [cur]: the assignment sends exactly one read and at most one write; when
    the requested state is the current one (['Y']/[True] while active,
    ['N']/[False] while inactive) it returns normally having called neither
    [activate()] nor [deactivate()] and sent no write; ['Y']/[True] while
    inactive calls [activate()] exactly once and [deactivate()] not at all;
    ['N']/[False] while active calls [deactivate()] exactly once and
    [activate()] not at all. (What the one call then does is the business
    of [_update]: it raises before anything is sent, so the assignment ends
    with that exception.) *)
Theorem active_set_transitions (s : state) (value cur : pyval) (s1 : state) :
  active_get s = Ok cur s1 ->
  in_tuple value activate_values = true \/
  in_tuple value deactivate_values = true ->
  exists evs,
    trace (final (active_set value s)) = trace s ++ evs /\
    count is_read evs = 1%nat /\
    (count is_write evs <= 1)%nat /\
    (in_tuple value activate_values = truthy cur ->
     active_set value s = Ok tt s1 /\
     count is_write evs = 0%nat /\
     count (is_call "activate") evs = 0%nat /\
     count (is_call "deactivate") evs = 0%nat) /\
    (in_tuple value activate_values = true -> truthy cur = false ->
     count (is_call "activate") evs = 1%nat /\
     count (is_call "deactivate") evs = 0%nat /\
     exists e,
       active_set value s = Raise e (record (Call "activate") s1)) /\
    (in_tuple value deactivate_values = true -> truthy cur = true ->
     count (is_call "deactivate") evs = 1%nat /\
     count (is_call "activate") evs = 0%nat /\
     exists e,
       active_set value s = Raise e (record (Call "deactivate") s1)).
Proof.
  intros Hget Hvalue.
  pose proof (active_get_trace s) as Hread. rewrite Hget in Hread.
  simpl in Hread.
  assert (Hsplit : in_tuple value activate_values = true /\
                   in_tuple value deactivate_values = false \/
                   in_tuple value activate_values = false /\
                   in_tuple value deactivate_values = true).
  { destruct Hvalue as [Hon|Hoff].
    - left. split; [assumption|]. now apply activate_not_deactivate.
    - right. split; [|assumption].
      destruct (in_tuple value activate_values) eqn:Hon; [|reflexivity].
      apply activate_not_deactivate in Hon. congruence. }
  clear Hvalue. unfold active_set.
  destruct Hsplit as [[Hon Hoff]|[Hon Hoff]]; rewrite Hon, Hoff;
    cbv beta iota delta [bind ret]; rewrite Hget; cbv beta iota;
    destruct (truthy cur) eqn:Hcur; cbv beta iota delta [negb].
  - exists [Request (self_uri (self_dict s)) "GET" PNone].
    repeat split; auto; discriminate.
  - destruct (activate_raises s1) as [e He]. rewrite He. simpl.
    exists [Request (self_uri (self_dict s)) "GET" PNone; Call "activate"].
    rewrite Hread, <- app_assoc.
    repeat split; eauto; discriminate.
  - destruct (deactivate_raises s1) as [e He]. rewrite He. simpl.
    exists [Request (self_uri (self_dict s)) "GET" PNone; Call "deactivate"].
    rewrite Hread, <- app_assoc.
    repeat split; eauto; discriminate.
  - exists [Request (self_uri (self_dict s)) "GET" PNone].
    repeat split; auto; discriminate.
Qed.

Lemma active_set_transitions_witness :
  let s := Scenario.created [Body (Scenario.response (PStr "N"))] in
  let cur := PActive (PStr "N") in
  let s1 := final (active_get s) in
  (active_get s = Ok cur s1 /\
   (in_tuple (PBool true) activate_values = true \/
    in_tuple (PBool true) deactivate_values = true)) /\
  exists evs,
    trace (final (active_set (PBool true) s)) = trace s ++ evs /\
    count is_read evs = 1%nat /\
    (count is_write evs <= 1)%nat /\
    count (is_call "activate") evs = 1%nat /\
    count (is_call "deactivate") evs = 0%nat.
Proof.
  intros s cur s1.
  assert (Hget : active_get s = Ok cur s1) by (vm_compute; reflexivity).
  assert (Hvalue : in_tuple (PBool true) activate_values = true \/
                   in_tuple (PBool true) deactivate_values = true)
    by (left; reflexivity).
  split; [split; assumption|].
  destruct (active_set_transitions s (PBool true) cur s1 Hget Hvalue)
    as (evs & Htrace & Hreads & Hwrites & _ & Hon & _).
  exists evs. destruct Hon as (Hact & Hdeact & _); [reflexivity|reflexivity|].
  repeat split; assumption.
Defined.

(** C7. For every HealthMonitor, reading [status] while [zone] or [fqdn] is
    unset ([None]) raises [ValueError] and leaves the state untouched, so no
    request is made; while both are set, it sends one GET on
    [/Failover/{zone}/{fqdn}/] and returns the [status] field of the data of
    the response body. *)
Theorem status_reads_failover_path (s : state) (a : nat) (d : dict)
                                   (zone fqdn : pyval) :
  heap s !! a = Some d ->
  Dict.get "zone" d = Some zone ->
  Dict.get "fqdn" d = Some fqdn ->
  (zone = PNone \/ fqdn = PNone -> status (PObj a) s = Raise ValueError s) /\
  (forall z f body data st rest,
      zone <> PNone -> fqdn <> PNone ->
      py_str zone = Some z -> py_str fqdn = Some f ->
      replies s = Body (PDict body) :: rest ->
      Dict.get "data" body = Some (PDict data) ->
      Dict.get "status" data = Some st ->
      status (PObj a) s =
      Ok st (mkState (heap s) (self_dict s)
               (trace s ++
                [Request (PStr ("/Failover/" +:+ z +:+ "/" +:+ f +:+ "/"))
                         "GET" PNone])
               rest)).
Proof.
  intros Hheap Hzone Hfqdn.
  unfold status, uri, instance_dict, getattr.
  cbv beta iota delta [bind]. rewrite Hheap, Hzone. cbv beta iota delta [ret].
  split.
  - intros [->| ->]; [reflexivity|].
    destruct (is_None zone); [reflexivity|].
    now rewrite Hfqdn.
  - intros z f body data st rest Hz Hf Hsz Hsf Hreplies Hdata Hstatus.
    assert (Hnz : is_None zone = false)
      by (destruct zone; [congruence|reflexivity..]).
    assert (Hnf : is_None fqdn = false)
      by (destruct fqdn; [congruence|reflexivity..]).
    rewrite Hnz, Hfqdn, Hnf.
    cbv beta iota delta [format_uri ret]. rewrite Hsz, Hsf.
    cbv beta iota delta [execute]. rewrite Hreplies.
    cbv beta iota zeta delta [getitem ret]. rewrite Hdata.
    cbv beta iota. now rewrite Hstatus.
Qed.

Lemma status_reads_failover_path_witness :
  let d := Dict.set "fqdn" (PStr "www.example.com")
             (Dict.set "zone" (PStr "example.com")
                (instance_fields (PStr "HTTP") (PInt 5) PNone PNone PNone PNone
                                 PNone PNone PNone)) in
  let body := [("data", PDict [("status", PStr "up")])] in
  let s := mkState [d] [] [] [Body (PDict body)] in
  (heap s !! 0%nat = Some d /\
   Dict.get "zone" d = Some (PStr "example.com") /\
   Dict.get "fqdn" d = Some (PStr "www.example.com")) /\
  status (PObj 0) s =
  Ok (PStr "up")
     (mkState [d] [] [Request (PStr "/Failover/example.com/www.example.com/")
                              "GET" PNone] []).
Proof.
  intros d body s.
  assert (Hheap : heap s !! 0%nat = Some d) by reflexivity.
  assert (Hzone : Dict.get "zone" d = Some (PStr "example.com"))
    by reflexivity.
  assert (Hfqdn : Dict.get "fqdn" d = Some (PStr "www.example.com"))
    by reflexivity.
  split; [auto|].
  destruct (status_reads_failover_path s 0 d _ _ Hheap Hzone Hfqdn)
    as [_ Hset].
  apply (Hset "example.com" "www.example.com" body [("status", PStr "up")]
              (PStr "up") []); try reflexivity; discriminate.
Defined.

(** ** ActiveFailover._build *)

Lemma get_base_build_other k data : forall sd,
  Dict.get k data = None ->
  Dict.get (String "_"%char k)
    (Dict.assign (map (fun kv => (String "_"%char (fst kv), snd kv)) data) sd) =
  Dict.get (String "_"%char k) sd.
Proof.
  unfold Dict.assign.
  induction data as [|[k0 v0] data IH]; intros sd Hk; simpl in *.
  - reflexivity.
  - destruct (String.eqb k k0) eqn:E; [discriminate|].
    apply String.eqb_neq in E.
    rewrite IH by assumption. apply get_set_ne. congruence.
Qed.

Lemma is_parameter_In k : is_parameter k = true -> In k parameters.
Proof.
  unfold is_parameter. intros H.
  apply existsb_exists in H as (x & Hx & E).
  apply String.eqb_eq in E. now subst.
Qed.

(** The tracked fields of a monitor called with the keyword arguments
    [sub]. *)
Lemma instance_fields_keywords sub p i k v :
  Dict.get "protocol" sub = Some p ->
  Dict.get "interval" sub = Some i ->
  In k parameters ->
  Dict.get k sub = Some v ->
  Dict.get (String "_"%char k)
    (instance_fields p i (keyword sub "retries") (keyword sub "timeout")
       (keyword sub "port") (keyword sub "path") (keyword sub "host")
       (keyword sub "header") (keyword sub "expected")) = Some v.
Proof.
  intros Hp Hi Hk Hv. simpl in Hk. unfold keyword.
  repeat (destruct Hk as [<-|Hk];
          [first [rewrite Hv; reflexivity
                 | rewrite Hp in Hv; injection Hv as <-; reflexivity
                 | rewrite Hi in Hv; injection Hv as <-; reflexivity]|]).
  destruct Hk.
Qed.

(** What [_build] does with a [monitor] sub-object the constructor accepts:
    a new instance is put on the heap and becomes the owned monitor. *)
Lemma build_owned_monitor (data sub : dict) (p i : pyval) (s : state) :
  Dict.get "monitor" data = Some (PDict sub) ->
  forallb is_parameter (Dict.keys sub) = true ->
  Dict.get "protocol" sub = Some p ->
  Dict.get "interval" sub = Some i ->
  exists s',
    build (PDict data) s = Ok tt s' /\
    descriptor_get "monitor" (self_dict s') = PObj (length (heap s)) /\
    heap s' =
    heap s ++
    [instance_fields p i (keyword sub "retries") (keyword sub "timeout")
       (keyword sub "port") (keyword sub "path") (keyword sub "host")
       (keyword sub "header") (keyword sub "expected")] /\
    trace s' = trace s /\
    replies s' = replies s /\
    (forall x,
        Dict.get "active" data = Some x ->
        Dict.get "_active" (self_dict s') = Some (PActive x)).
Proof.
  intros Hmon Hparams Ep Ei.
  assert (Hactive : Dict.get "active" (Dict.remove "monitor" data) =
                    Dict.get "active" data)
    by (apply get_remove_ne; discriminate).
  unfold build.
  cbv beta iota delta [bind]. rewrite Hmon.
  cbv beta iota delta [call_kwargs]. rewrite Hparams, Ep, Ei.
  cbv beta iota delta [HealthMonitor.init new_object setattr_self ret].
  rewrite Hactive.
  destruct (Dict.get "active" data) as [x|] eqn:Ea;
    cbv beta iota delta [setattr_self ret base_build];
    eexists; (split; [reflexivity|]); cbn [heap self_dict trace replies];
    repeat split.
  - unfold descriptor_get. rewrite get_base_build_other.
    + rewrite get_set_ne by discriminate. now rewrite get_set_eq.
    + rewrite get_remove_ne by discriminate. apply get_remove_eq.
  - intros y [= <-]. rewrite get_base_build_other.
    + apply get_set_eq.
    + apply get_remove_eq.
  - unfold descriptor_get. rewrite get_base_build_other.
    + now rewrite get_set_eq.
    + apply get_remove_eq.
  - discriminate.
Qed.

(** C8, as amended. For every response body whose [monitor] sub-object has
    the keys [protocol] and [interval] and no key outside the nine
    parameters of [HealthMonitor], [_build] succeeds and yields an owned
    HealthMonitor whose tracked fields equal the sub-object's values at the
    corresponding keys (minus the underscore); if the body has an [active]
    field, it is wrapped in [Active]. *)
Theorem build_round_trip (data sub : dict) (s : state) :
  Dict.get "monitor" data = Some (PDict sub) ->
  forallb is_parameter (Dict.keys sub) = true ->
  Dict.has "protocol" sub = true ->
  Dict.has "interval" sub = true ->
  round_trip data sub s.
Proof.
  intros Hmon Hparams Hp Hi. unfold Dict.has in Hp, Hi.
  destruct (Dict.get "protocol" sub) as [p|] eqn:Ep; [clear Hp|discriminate].
  destruct (Dict.get "interval" sub) as [i|] eqn:Ei; [clear Hi|discriminate].
  destruct (build_owned_monitor data sub p i s Hmon Hparams Ep Ei)
    as (s' & Hbuild & Howned & Hheap & _ & _ & Hact).
  exists s', (length (heap s)). eexists.
  split; [exact Hbuild|]. split; [exact Howned|].
  split; [rewrite Hheap; now apply list_lookup_middle|].
  split; [|exact Hact].
  intros k v Hv. apply instance_fields_keywords; try assumption.
  apply is_parameter_In.
  rewrite forallb_forall in Hparams. apply Hparams.
  apply In_keys with v. now apply get_In.
Qed.

Lemma build_round_trip_witness :
  let sub := [("protocol", PStr "HTTP"); ("interval", PInt 5);
              ("timeout", PInt 10)] in
  let data := [("address", PStr "192.0.2.1"); ("monitor", PDict sub);
               ("active", PStr "Y")] in
  (Dict.get "monitor" data = Some (PDict sub) /\
   forallb is_parameter (Dict.keys sub) = true /\
   Dict.has "protocol" sub = true /\
   Dict.has "interval" sub = true) /\
  round_trip data sub (Scenario.start []).
Proof.
  intros sub data. split; [repeat split|].
  apply (build_round_trip data sub (Scenario.start [])); reflexivity.
Defined.

(** C8 as stated fails: a [monitor] sub-object with a key that is no
    parameter of [HealthMonitor] makes [_build] raise [TypeError], and no
    monitor is built. *)
Lemma build_round_trip_counterexample :
  let sub := [("protocol", PStr "HTTP"); ("interval", PInt 5);
              ("status", PStr "up")] in
  let data := [("monitor", PDict sub)] in
  build (PDict data) (Scenario.start []) = Raise TypeError (Scenario.start [])
  /\ ~ round_trip data sub (Scenario.start []).
Proof.
  intros sub data. split; [reflexivity|].
  intros (s' & a & dm & Hbuild & _). vm_compute in Hbuild. discriminate.
Qed.

Lemma wf_instance_fields p i r t po pa h he e :
  Dict.wf (instance_fields p i r t po pa h he e).
Proof. unfold instance_fields. apply wf_assign. constructor. Qed.

(** The round trip closes: serialising the monitor that [_build] made gives
    back the values of the sub-object, for every key whose value is neither
    [None] nor callable. *)
Lemma build_then_to_json (data sub : dict) (s : state) :
  Dict.get "monitor" data = Some (PDict sub) ->
  forallb is_parameter (Dict.keys sub) = true ->
  Dict.has "protocol" sub = true ->
  Dict.has "interval" sub = true ->
  exists s' a dm,
    build (PDict data) s = Ok tt s' /\
    descriptor_get "monitor" (self_dict s') = PObj a /\
    heap s' !! a = Some dm /\
    forall k v,
      Dict.get k sub = Some v -> v <> PNone -> callable v = false ->
      Dict.get k (to_json dm) = Some v.
Proof.
  intros Hmon Hparams Hp Hi. unfold Dict.has in Hp, Hi.
  destruct (Dict.get "protocol" sub) as [p|] eqn:Ep; [clear Hp|discriminate].
  destruct (Dict.get "interval" sub) as [i|] eqn:Ei; [clear Hi|discriminate].
  destruct (build_owned_monitor data sub p i s Hmon Hparams Ep Ei)
    as (s' & Hbuild & Howned & Hheap & _).
  exists s', (length (heap s)). eexists.
  split; [exact Hbuild|]. split; [exact Howned|].
  split; [rewrite Hheap; now apply list_lookup_middle|].
  intros k v Hv Hn Hc.
  apply to_json_get_tracked; [apply wf_instance_fields| |assumption..].
  apply get_In, instance_fields_keywords; try assumption.
  apply is_parameter_In.
  rewrite forallb_forall in Hparams. apply Hparams.
  apply In_keys with v. now apply get_In.
Qed.

(** ** HealthMonitor.__init__ and the validated attributes *)

(** Construction never fails: the arguments are stored as they come. *)
Lemma init_always_succeeds protocol interval retries timeout port path host
                           header expected s :
  HealthMonitor.init protocol interval retries timeout port path host header
                     expected s =
  Ok (PObj (length (heap s)))
     (mkState
        (heap s ++
         [instance_fields protocol interval retries timeout port path host
                          header expected])
        (self_dict s) (trace s) (replies s)).
Proof. reflexivity. Qed.

(** Assignment through a validated attribute rejects a value outside the
    validator at once, before anything is stored. *)
Lemma validated_set_rejects validator name self value s :
  in_tuple value validator = false ->
  validated_set validator name self value s = Raise ValidationError s.
Proof. intros H. unfold validated_set. now rewrite H. Qed.

Lemma validated_set_accepts validator name a d value s :
  in_tuple value validator = true ->
  heap s !! a = Some d ->
  validated_set validator name (PObj a) value s =
  Ok tt (mkState (<[a := Dict.set (String "_"%char name) value d]> (heap s))
                 (self_dict s) (trace s) (replies s)).
Proof.
  intros H Hd. unfold validated_set, setattr_instance. now rewrite H, Hd.
Qed.

(** C3, at the failing input [HealthMonitor('FTP', 7, timeout=11)]: none of
    the three values is in its enumerated set, and yet construction succeeds
    and the instance holds them. Assigning the same values through the
    validated attributes is what fails. *)
Theorem init_accepts_invalid_values :
  let s := Scenario.start [] in
  (in_tuple (PStr "FTP") protocol_validator = false /\
   in_tuple (PInt 7) interval_validator = false /\
   in_tuple (PInt 11) timeout_validator = false) /\
  HealthMonitor.init (PStr "FTP") (PInt 7) PNone (PInt 11) PNone PNone PNone
                     PNone PNone s =
  Ok (PObj 0)
     (mkState
        [[("_protocol", PStr "FTP"); ("_interval", PInt 7);
          ("_retries", PNone); ("_timeout", PInt 11); ("_port", PNone);
          ("_path", PNone); ("_host", PNone); ("_header", PNone);
          ("_expected", PNone); ("zone", PNone); ("fqdn", PNone)]]
        [] [] []) /\
  (forall m s', set_protocol m (PStr "FTP") s' = Raise ValidationError s') /\
  (forall m s', set_interval m (PInt 7) s' = Raise ValidationError s') /\
  (forall m s', set_timeout m (PInt 11) s' = Raise ValidationError s').
Proof.
  intros s. repeat split; intros; now apply validated_set_rejects.
Qed.

(** ** ActiveFailover._post *)

(** One step of a computation at a time. *)
Module Steps.

Lemma bind_setattr_self {B} name x (k : unit -> M B) s :
  bind (setattr_self name x) k s =
  k tt (mkState (heap s) (Dict.set name x (self_dict s)) (trace s) (replies s)).
Proof. reflexivity. Qed.

Lemma bind_get_self {B} (k : dict -> M B) s :
  bind get_self k s = k (self_dict s) s.
Proof. reflexivity. Qed.

Lemma bind_getattr {B} d name v (k : pyval -> M B) s :
  Dict.get name d = Some v -> bind (getattr d name) k s = k v s.
Proof. intros H. unfold bind, getattr. now rewrite H. Qed.

Lemma bind_setattr_instance {B} a name x d (k : unit -> M B) s :
  heap s !! a = Some d ->
  bind (setattr_instance (PObj a) name x) k s =
  k tt (mkState (<[a := Dict.set name x d]> (heap s)) (self_dict s) (trace s)
                (replies s)).
Proof. intros H. unfold bind, setattr_instance. now rewrite H. Qed.

Lemma bind_execute {B} path method args r rest (k : pyval -> M B) s :
  replies s = Body r :: rest ->
  bind (execute path method args) k s =
  k r (mkState (heap s) (self_dict s)
               (trace s ++ [Request path method args]) rest).
Proof. intros H. unfold bind, execute. now rewrite H. Qed.

Lemma bind_getitem {B} d key v (k : pyval -> M B) s :
  Dict.get key d = Some v -> bind (getitem (PDict d) key) k s = k v s.
Proof. intros H. unfold bind, getitem. now rewrite H. Qed.

Lemma bind_api_args {B} a dm (k : dict -> M B) s :
  descriptor_get "monitor" (self_dict s) = PObj a ->
  heap s !! a = Some dm ->
  bind api_args k s =
  k [("address", descriptor_get "address" (self_dict s));
     ("failover_mode", descriptor_get "failover_mode" (self_dict s));
     ("failover_data", descriptor_get "failover_data" (self_dict s));
     ("monitor", PDict (to_json dm));
     ("contact_nickname", descriptor_get "contact_nickname" (self_dict s))] s.
Proof.
  intros Hm Hd.
  unfold bind, api_args, bind, get_self, call_to_json, bind, instance_dict.
  now rewrite Hm, Hd.
Qed.

Lemma descriptor_get_set_eq f x d :
  descriptor_get f (Dict.set (String "_"%char f) x d) = x.
Proof. unfold descriptor_get. now rewrite get_set_eq. Qed.

Lemma descriptor_get_set_ne f name x d :
  name <> String "_"%char f ->
  descriptor_get f (Dict.set name x d) = descriptor_get f d.
Proof. intros H. unfold descriptor_get. now rewrite get_set_ne. Qed.

Lemma self_uri_set name x d :
  name <> "uri" -> self_uri (Dict.set name x d) = self_uri d.
Proof. intros H. unfold self_uri. now rewrite get_set_ne. Qed.

End Steps.

Import Steps.

(** [_post] up to the response: the arguments are stored, the monitor that
    was passed in gets the parent's [zone] and [fqdn] as they are at that
    moment, one POST goes to the resource path with the five mandatory
    fields, the monitor as its [to_json()] mapping, and the state is then
    rebuilt from the data of the body. *)
Lemma post_builds_from_response
      address failover_mode failover_data a contact_nickname auto_recover
      notify_events syslog_server syslog_port syslog_ident syslog_facility ttl
      s d body data rest :
  heap s !! a = Some d ->
  replies s = Body (PDict body) :: rest ->
  Dict.get "data" body = Some data ->
  post address failover_mode failover_data (PObj a) contact_nickname
       auto_recover notify_events syslog_server syslog_port syslog_ident
       syslog_facility ttl s =
  build data
    (mkState
       (<[a := Dict.set "fqdn" (descriptor_get "fqdn" (self_dict s))
                 (Dict.set "zone" (descriptor_get "zone" (self_dict s)) d)]>
          (heap s))
       (Dict.assign
          [("_address", address); ("_failover_mode", failover_mode);
           ("_failover_data", failover_data); ("_monitor", PObj a);
           ("_contact_nickname", contact_nickname);
           ("_auto_recover", auto_recover); ("_notify_events", notify_events);
           ("_syslog_server", syslog_server); ("_syslog_port", syslog_port);
           ("_syslog_ident", syslog_ident);
           ("_syslog_facility", syslog_facility); ("_ttl", ttl)]
          (self_dict s))
       (trace s ++
        [Request (self_uri (self_dict s)) "POST"
           (PDict [("address", address); ("failover_mode", failover_mode);
                   ("failover_data", failover_data);
                   ("monitor", PDict (to_json d));
                   ("contact_nickname", contact_nickname)])])
       rest).
Proof.
  intros Hd Hreplies Hdata.
  pose proof (lookup_lt_Some _ _ _ Hd) as Hlt.
  unfold post.
  do 4 (rewrite bind_setattr_self; cbn [heap self_dict trace replies]).
  rewrite bind_get_self; cbn [heap self_dict trace replies].
  rewrite (bind_getattr _ _ (PObj a)) by apply get_set_eq.
  rewrite (bind_setattr_instance _ _ _ d) by exact Hd.
  cbn [heap self_dict trace replies].
  rewrite (bind_getattr _ _ (PObj a)) by apply get_set_eq.
  rewrite (bind_setattr_instance _ _ _ (Dict.set "zone" _ d))
    by (now apply list_lookup_insert_eq).
  cbn [heap self_dict trace replies].
  rewrite list_insert_insert_eq.
  do 8 (rewrite bind_setattr_self; cbn [heap self_dict trace replies]).
  rewrite bind_get_self; cbn [heap self_dict trace replies].
  rewrite !descriptor_get_set_ne by discriminate.
  rewrite !self_uri_set by discriminate.
  rewrite (bind_api_args a
             (Dict.set "fqdn" (descriptor_get "fqdn" (self_dict s))
                (Dict.set "zone" (descriptor_get "zone" (self_dict s)) d)));
    cbn [heap self_dict trace replies].
  - repeat (rewrite !descriptor_get_set_ne by discriminate;
            rewrite descriptor_get_set_eq).
    rewrite !to_json_set_public by reflexivity.
    erewrite bind_execute by exact Hreplies.
    now rewrite (bind_getitem _ _ _ _ _ Hdata).
  - rewrite !descriptor_get_set_ne by discriminate.
    apply descriptor_get_set_eq.
  - now apply list_lookup_insert_eq.
Qed.

(** Whenever the response carries a [monitor] sub-object, as the resource
    does, the monitor owned after [_post] is not the one that was passed in
    but a new one, and its two back-references are [None]. *)
Lemma post_owns_unlinked_monitor
      address failover_mode failover_data a contact_nickname auto_recover
      notify_events syslog_server syslog_port syslog_ident syslog_facility ttl
      s d body data sub p i rest :
  heap s !! a = Some d ->
  replies s = Body (PDict body) :: rest ->
  Dict.get "data" body = Some (PDict data) ->
  Dict.get "monitor" data = Some (PDict sub) ->
  forallb is_parameter (Dict.keys sub) = true ->
  Dict.get "protocol" sub = Some p ->
  Dict.get "interval" sub = Some i ->
  exists s' owned dm,
    post address failover_mode failover_data (PObj a) contact_nickname
         auto_recover notify_events syslog_server syslog_port syslog_ident
         syslog_facility ttl s = Ok tt s' /\
    descriptor_get "monitor" (self_dict s') = PObj owned /\
    owned <> a /\
    heap s' !! owned = Some dm /\
    Dict.get "zone" dm = Some PNone /\
    Dict.get "fqdn" dm = Some PNone.
Proof.
  intros Hd Hreplies Hdata Hmon Hparams Ep Ei.
  pose proof (lookup_lt_Some _ _ _ Hd) as Hlt.
  rewrite (post_builds_from_response _ _ _ _ _ _ _ _ _ _ _ _ _ _ _ _ _
             Hd Hreplies Hdata).
  match goal with
  | |- context [build _ ?mid] =>
      destruct (build_owned_monitor data sub p i mid Hmon Hparams Ep Ei)
        as (s' & Hbuild & Howned & Hheap & _)
  end.
  cbn [heap] in Howned, Hheap. rewrite length_insert in Howned.
  exists s', (length (heap s)). eexists.
  split; [exact Hbuild|]. split; [exact Howned|].
  split; [lia|].
  split; [rewrite Hheap; apply list_lookup_middle; now rewrite length_insert|].
  split; reflexivity.
Qed.

(** C4, at the failing input: a new [ActiveFailover('example.com',
    'www.example.com')] is created with [HealthMonitor('HTTP', 5)] and the
    service answers with the resource. The POST goes to
    [/Failover/example.com/www.example.com/] with the payload assembled from
    the arguments, and the call returns; but the monitor the service then
    owns is the one [_build] made from the response, whose [zone] and [fqdn]
    are [None], while the parent's are [example.com] and
    [www.example.com]. The monitor that was passed in got [None] for both
    as well: [__init__] keeps the zone and the fqdn in the path only. *)
Theorem create_loses_back_references :
  let s0 := Scenario.start [Body (Scenario.response (PStr "Y"))] in
  let s := final (Scenario.create s0) in
  Scenario.create s0 = Ok tt s /\
  trace s =
  [Request (PStr "/Failover/example.com/www.example.com/") "POST"
           (PDict [("address", PStr "192.0.2.1");
                   ("failover_mode", PStr "ip");
                   ("failover_data", PStr "192.0.2.2");
                   ("monitor", Scenario.monitor_json);
                   ("contact_nickname", PStr "owner")])] /\
  descriptor_get "zone" (self_dict s) = PStr "example.com" /\
  descriptor_get "fqdn" (self_dict s) = PStr "www.example.com" /\
  descriptor_get "monitor" (self_dict s) = PObj 1 /\
  (exists owned,
      heap s !! 1%nat = Some owned /\
      Dict.get "zone" owned = Some PNone /\
      Dict.get "fqdn" owned = Some PNone) /\
  (exists passed,
      heap s !! 0%nat = Some passed /\
      Dict.get "zone" passed = Some PNone /\
      Dict.get "fqdn" passed = Some PNone).
Proof.
  intros s0 s. repeat split; try reflexivity.
  - eexists. repeat split; reflexivity.
  - eexists. repeat split; reflexivity.
Qed.

(** Creating again on the instance, whose zone and fqdn are known by now:
    the monitor passed in gets both back-references, and the service still
    ends up owning another one that has neither. *)
Example create_again_replaces_monitor :
  let again : M unit :=
    do m <- HealthMonitor.init (PStr "PING") (PInt 1) PNone PNone PNone PNone
                               PNone PNone PNone;
    post (PStr "192.0.2.1") (PStr "ip") (PStr "192.0.2.2") m (PStr "owner")
         PNone PNone PNone PNone PNone PNone PNone in
  let s := final (again (Scenario.created [Body (Scenario.response (PStr "Y"))])) in
  descriptor_get "monitor" (self_dict s) = PObj 3 /\
  (heap s !! 2%nat ≫= Dict.get "zone") = Some (PStr "example.com") /\
  (heap s !! 3%nat ≫= Dict.get "zone") = Some PNone.
Proof. repeat split; reflexivity. Qed.

(** ** ActiveFailover._update *)

(** Whenever the two serialisation steps go through and the service has a
    monitor, the exception of [_update] is the [ValueError] of the merge
    loop. *)
Lemma update_populated_raises_ValueError args a1 a2 m dm s :
  serialize_monitor args s = Ok a1 s ->
  serialize_notify_events a1 s = Ok a2 s ->
  descriptor_get "monitor" (self_dict s) = PObj m ->
  heap s !! m = Some dm ->
  update args s = Raise ValueError s.
Proof.
  intros H1 H2 Hm Hdm. unfold update.
  unfold bind at 1. rewrite H1. unfold bind at 1. rewrite H2.
  now rewrite (bind_api_args m dm).
Qed.

(** C1, at the failing input: on the created service, whose mandatory fields
    are all populated, [_update(ttl=60)] raises [ValueError] where it unpacks
    the first key of [api_args]; the state is as before, nothing was sent,
    and the answer the service had ready is still waiting. *)
Theorem update_partial_sends_nothing :
  let s := Scenario.created [Body (Scenario.response (PStr "Y"))] in
  (descriptor_get "address" (self_dict s) = PStr "192.0.2.1" /\
   descriptor_get "failover_mode" (self_dict s) = PStr "ip" /\
   descriptor_get "failover_data" (self_dict s) = PStr "192.0.2.2" /\
   descriptor_get "monitor" (self_dict s) = PObj 1 /\
   descriptor_get "contact_nickname" (self_dict s) = PStr "owner") /\
  update [("ttl", PInt 60)] s = Raise ValueError s /\
  update [] s = Raise ValueError s /\
  count is_write (trace (final (update [("ttl", PInt 60)] s))) =
  count is_write (trace s).
Proof. repeat split; reflexivity. Qed.

(** C2, at the failing input: [_update(notify_events=['ip', 'svc'])] and
    [_update(monitor=HealthMonitor('HTTP', 5))] do serialise their argument,
    to ["ip, svc"] and to the [to_json()] mapping, and then raise
    [ValueError] in the merge loop: no payload goes out. *)
Theorem update_serialised_fields_never_sent :
  let s := Scenario.created [Body (Scenario.response (PStr "Y"))] in
  let events := [("notify_events", PList [PStr "ip"; PStr "svc"])] in
  let monitor := [("monitor", PObj 0)] in
  (do a <- serialize_monitor events; serialize_notify_events a) s =
  Ok [("notify_events", PStr "ip, svc")] s /\
  update events s = Raise ValueError s /\
  (do a <- serialize_monitor monitor; serialize_notify_events a) s =
  Ok [("monitor", Scenario.monitor_json)] s /\
  update monitor s = Raise ValueError s.
Proof. repeat split; reflexivity. Qed.

(** * Further properties *)

(** ** What to_json gives for a constructed monitor *)

Lemma set_fresh k v (blob : dict) :
  Dict.get k blob = None -> Dict.set k v blob = blob ++ [(k, v)].
Proof.
  induction blob as [|[k' v'] blob IH]; simpl; [reflexivity|].
  destruct (String.eqb k k'); [discriminate|].
  intros H. now rewrite IH.
Qed.

Lemma get_snoc_ne k k' v (blob : dict) :
  k <> k' -> Dict.get k (blob ++ [(k', v)]) = Dict.get k blob.
Proof.
  intros Hne. induction blob as [|[k0 v0] blob IH]; simpl.
  - apply String.eqb_neq in Hne. now rewrite Hne.
  - now rewrite IH.
Qed.

Lemma tracked_underscore f v : tracked (String "_"%char f) v = json_ok v.
Proof. unfold tracked, json_ok. simpl. apply andb_true_r. Qed.

(** The loop over a run of private fields whose names are new to the blob:
    those that pass are appended in order. *)
Lemma collect_fresh (items : dict) : forall (blob rest : dict),
  NoDup (Dict.keys items) ->
  (forall k, In k (Dict.keys items) -> Dict.get k blob = None) ->
  collect (map (fun kv => (String "_"%char (fst kv), snd kv)) items ++ rest)
          blob =
  collect rest (blob ++ List.filter (fun kv => json_ok (snd kv)) items).
Proof.
  induction items as [|[k v] items IH]; intros blob rest Hnd Hfresh; simpl.
  - now rewrite app_nil_r.
  - apply NoDup_cons in Hnd as [Hk Hnd].
    unfold collect; simpl; fold (collect (map (fun kv => (String "_"%char (fst kv), snd kv)) items ++ rest)).
    rewrite tracked_underscore.
    destruct (json_ok v).
    + rewrite set_fresh by (apply Hfresh; now left).
      rewrite IH; [now rewrite <- app_assoc|assumption|].
      intros k' Hk'. rewrite get_snoc_ne.
      * apply Hfresh. now right.
      * intros ->. apply Hk. now apply list_elem_of_In.
    + apply IH; [assumption|]. intros k' Hk'. apply Hfresh. now right.
Qed.

(** The mapping [to_json] gives for the [__dict__] that [__init__] lays out,
    whatever the two back-references hold. *)
Lemma to_json_of_fields p i r t po pa h he e z f :
  to_json
    [("_protocol", p); ("_interval", i); ("_retries", r); ("_timeout", t);
     ("_port", po); ("_path", pa); ("_host", h); ("_header", he);
     ("_expected", e); ("zone", z); ("fqdn", f)] =
  ("protocol", p) :: ("interval", i) ::
  List.filter (fun kv => json_ok (snd kv)) (optional_items r t po pa h he e).
Proof.
  rewrite to_json_collect.
  change (descriptor_get "protocol" _) with p.
  change (descriptor_get "interval" _) with i.
  set (blob := [("protocol", p); ("interval", i)]).
  assert (H2 : forall rest,
             collect (("_protocol", p) :: ("_interval", i) :: rest) blob =
             collect rest blob).
  { intros rest. unfold collect. cbn [fold_left fst snd].
    rewrite !tracked_underscore.
    now destruct (json_ok p), (json_ok i). }
  rewrite H2.
  change [("_retries", r); ("_timeout", t); ("_port", po); ("_path", pa);
          ("_host", h); ("_header", he); ("_expected", e); ("zone", z);
          ("fqdn", f)]
    with (map (fun kv => (String "_"%char (fst kv), snd kv))
              (optional_items r t po pa h he e) ++
          [("zone", z); ("fqdn", f)]).
  rewrite collect_fresh.
  - unfold collect, tracked. cbn [fold_left fst snd startswith_underscore].
    change (Ascii.eqb "z" "_") with false.
    change (Ascii.eqb "f" "_") with false.
    now rewrite !andb_false_r.
  - apply (bool_decide_unpack _). vm_compute. exact I.
  - intros k Hk. simpl in Hk.
    repeat (destruct Hk as [<-|Hk]; [reflexivity|]). destruct Hk.
Qed.

(** The layout of the [__dict__] of a monitor never changes. *)
Lemma monitor_state_shape d :
  monitor_state d ->
  exists p i r t po pa h he e z f,
    d = [("_protocol", p); ("_interval", i); ("_retries", r); ("_timeout", t);
         ("_port", po); ("_path", pa); ("_host", h); ("_header", he);
         ("_expected", e); ("zone", z); ("fqdn", f)].
Proof.
  induction 1 as [p i r t po pa h he e
                 | d v _ (p & i & r & t & po & pa & h & he & e & z & f & ->)
                 | d v _ (p & i & r & t & po & pa & h & he & e & z & f & ->)
                 | d name v Hname _
                     (p & i & r & t & po & pa & h & he & e & z & f & ->)].
  - now exists p, i, r, t, po, pa, h, he, e, PNone, PNone.
  - now exists p, i, r, t, po, pa, h, he, e, v, f.
  - now exists p, i, r, t, po, pa, h, he, e, z, v.
  - simpl in Hname.
    repeat (destruct Hname as [<-|Hname]; [repeat eexists; reflexivity|]).
    destruct Hname.
Qed.

(** X1. In every state a HealthMonitor goes through, [to_json()] is the list
    that starts with [protocol] and [interval], whatever their values, and
    goes on with those of [retries], [timeout], [port], [path], [host],
    [header], [expected], in this order, whose value is neither [None] nor
    callable. *)
Theorem to_json_of_monitor (d : dict) :
  monitor_state d ->
  to_json d =
  ("protocol", descriptor_get "protocol" d) ::
  ("interval", descriptor_get "interval" d) ::
  List.filter (fun kv => json_ok (snd kv))
    (optional_items (descriptor_get "retries" d) (descriptor_get "timeout" d)
       (descriptor_get "port" d) (descriptor_get "path" d)
       (descriptor_get "host" d) (descriptor_get "header" d)
       (descriptor_get "expected" d)).
Proof.
  intros Hd.
  destruct (monitor_state_shape d Hd)
    as (p & i & r & t & po & pa & h & he & e & z & f & ->).
  apply to_json_of_fields.
Qed.

Lemma to_json_of_monitor_witness :
  let d := Dict.set "zone" (PStr "example.com")
             (instance_fields (PStr "HTTPS") (PInt 10) (PInt 3) PNone
                              (PInt 8443) PNone PNone PNone (PStr "ok")) in
  monitor_state d /\
  to_json d =
  [("protocol", PStr "HTTPS"); ("interval", PInt 10); ("retries", PInt 3);
   ("port", PInt 8443); ("expected", PStr "ok")].
Proof.
  intros d.
  assert (Hd : monitor_state d) by apply ms_zone, ms_init.
  split; [exact Hd|].
  rewrite (to_json_of_monitor d Hd). reflexivity.
Defined.

(** ** Serialise, rebuild, serialise *)

Lemma get_filter_json_ok k (items : dict) :
  Dict.wf items ->
  Dict.get k (List.filter (fun kv => json_ok (snd kv)) items) =
  match Dict.get k items with
  | Some v => if json_ok v then Some v else None
  | None => None
  end.
Proof.
  unfold Dict.wf.
  induction items as [|[k' v'] items IH]; intros Hwf; simpl; [reflexivity|].
  apply NoDup_cons in Hwf as [Hk' Hwf].
  destruct (String.eqb k k') eqn:E.
  - apply String.eqb_eq in E. subst k'.
    destruct (json_ok v') eqn:Hok; simpl.
    + now rewrite String.eqb_refl.
    + rewrite IH by assumption.
      destruct (Dict.get k items) as [x|] eqn:Hx; [|reflexivity].
      exfalso. apply Hk', list_elem_of_In, In_keys with x. now apply get_In.
  - destruct (json_ok v'); simpl; [rewrite E|]; now apply IH.
Qed.

Lemma keys_filter_parameters (items : dict) :
  forallb is_parameter (Dict.keys items) = true ->
  forallb is_parameter
    (Dict.keys (List.filter (fun kv => json_ok (snd kv)) items)) = true.
Proof.
  induction items as [|[k v] items IH]; simpl; [reflexivity|].
  intros H. apply andb_prop in H as [Hk H].
  destruct (json_ok v); simpl; [rewrite Hk|]; now apply IH.
Qed.

Lemma filter_json_ok_idem (items : dict) :
  List.filter (fun kv => json_ok (snd kv))
    (map (fun kv => (fst kv, if json_ok (snd kv) then snd kv else PNone))
         items) =
  List.filter (fun kv => json_ok (snd kv)) items.
Proof.
  induction items as [|[k v] items IH]; simpl; [reflexivity|].
  destruct (json_ok v) eqn:Hok; simpl; [rewrite Hok|]; now rewrite IH.
Qed.

(** X2. Round trip through the payload: in every state a HealthMonitor goes
    through, calling [HealthMonitor] with the keyword arguments [to_json()]
    gives never fails; the new instance serialises to the very same mapping,
    and its two back-references are [None] again. *)
Theorem to_json_rebuild (d : dict) (s : state) :
  monitor_state d ->
  exists d',
    call_kwargs (PDict (to_json d)) s =
    Ok (PObj (length (heap s)))
       (mkState (heap s ++ [d']) (self_dict s) (trace s) (replies s)) /\
    monitor_state d' /\
    to_json d' = to_json d /\
    Dict.get "zone" d' = Some PNone /\
    Dict.get "fqdn" d' = Some PNone.
Proof.
  intros Hd.
  destruct (monitor_state_shape d Hd)
    as (p & i & r & t & po & pa & h & he & e & z & f & ->).
  rewrite to_json_of_fields.
  set (items := optional_items r t po pa h he e).
  set (js := ("protocol", p) :: ("interval", i) ::
             List.filter (fun kv => json_ok (snd kv)) items).
  assert (Hwf : Dict.wf items)
    by (apply (bool_decide_unpack _); vm_compute; exact I).
  assert (Hkw : forall name v,
             Dict.get name items = Some v ->
             keyword js name = if json_ok v then v else PNone).
  { intros name v Hv. unfold keyword, js. cbn [Dict.get].
    destruct (String.eqb name "protocol") eqn:E1;
      [apply String.eqb_eq in E1; subst; discriminate|].
    destruct (String.eqb name "interval") eqn:E2;
      [apply String.eqb_eq in E2; subst; discriminate|].
    rewrite get_filter_json_ok, Hv by assumption.
    now destruct (json_ok v). }
  eexists. split; [|split; [apply ms_init|split; [|split; reflexivity]]].
  - unfold call_kwargs.
    replace (forallb is_parameter (Dict.keys js)) with true
      by (symmetry; apply (keys_filter_parameters items); reflexivity).
    change (Dict.get "protocol" js) with (Some p).
    change (Dict.get "interval" js) with (Some i).
    reflexivity.
  - rewrite (Hkw "retries" r), (Hkw "timeout" t), (Hkw "port" po),
      (Hkw "path" pa), (Hkw "host" h), (Hkw "header" he),
      (Hkw "expected" e) by reflexivity.
    change (instance_fields p i _ _ _ _ _ _ _)
      with [("_protocol", p); ("_interval", i);
            ("_retries", if json_ok r then r else PNone);
            ("_timeout", if json_ok t then t else PNone);
            ("_port", if json_ok po then po else PNone);
            ("_path", if json_ok pa then pa else PNone);
            ("_host", if json_ok h then h else PNone);
            ("_header", if json_ok he then he else PNone);
            ("_expected", if json_ok e then e else PNone);
            ("zone", PNone); ("fqdn", PNone)].
    rewrite to_json_of_fields. unfold js. do 2 f_equal.
    apply (filter_json_ok_idem items).
Qed.

Lemma to_json_rebuild_witness :
  let d := Dict.set "fqdn" (PStr "www.example.com")
             (Dict.set "zone" (PStr "example.com")
                (instance_fields (PStr "HTTP") (PInt 5) PNone (PInt 10) PNone
                                 PNone PNone PNone PNone)) in
  monitor_state d /\
  exists d',
    call_kwargs (PDict (to_json d)) (Scenario.start []) =
    Ok (PObj 0) (mkState [d'] [] [] []) /\
    to_json d' = to_json d /\
    Dict.get "zone" d' = Some PNone.
Proof.
  intros d.
  assert (Hd : monitor_state d) by apply ms_fqdn, ms_zone, ms_init.
  split; [exact Hd|].
  destruct (to_json_rebuild d (Scenario.start []) Hd)
    as (d' & Hcall & _ & Hjson & Hzone & _).
  exists d'. auto.
Defined.

(** ** _update, activate and deactivate never send *)

Lemma call_to_json_cases v s :
  (exists js, call_to_json v s = Ok js s) \/
  call_to_json v s = Raise AttributeError s.
Proof.
  unfold call_to_json, bind, instance_dict, ret.
  destruct v; auto. destruct (heap s !! addr); eauto.
Qed.

Lemma serialize_monitor_cases a s :
  (exists a1, serialize_monitor a s = Ok a1 s) \/
  serialize_monitor a s = Raise AttributeError s.
Proof.
  unfold serialize_monitor.
  destruct (Dict.get "monitor" a) as [m|]; [|left; now eexists].
  unfold bind. destruct (call_to_json_cases m s) as [[js ->]| ->]; eauto.
Qed.

Lemma serialize_notify_events_cases a s :
  (exists a1, serialize_notify_events a s = Ok a1 s) \/
  serialize_notify_events a s = Raise TypeError s.
Proof.
  unfold serialize_notify_events.
  destruct (Dict.get "notify_events" a) as [l|]; [|left; now eexists].
  unfold bind, str_join.
  destruct l; auto; try (left; now eexists).
  destruct (strings_of items); auto. left. now eexists.
Qed.

Lemma api_args_cases s :
  (exists own,
      api_args s = Ok own s /\
      Dict.keys own =
      ["address"; "failover_mode"; "failover_data"; "monitor";
       "contact_nickname"]) \/
  api_args s = Raise AttributeError s.
Proof.
  unfold api_args, bind, get_self.
  destruct (call_to_json_cases (descriptor_get "monitor" (self_dict s)) s)
    as [[js ->]| ->]; [left|now right].
  eexists. split; reflexivity.
Qed.

(** X3. [ActiveFailover._update] never reaches the base class: for every
    keyword arguments and every state it raises ([AttributeError] for a
    monitor that is no instance, [TypeError] for [notify_events] that cannot
    be joined, [ValueError] from the loop over [api_args] otherwise), and the
    state stays as it was: nothing is stored, nothing is sent, no reply is
    consumed. *)
Theorem update_never_sends (args : dict) (s : state) :
  exists e,
    update args s = Raise e s /\
    (e = ValueError \/ e = TypeError \/ e = AttributeError).
Proof.
  unfold update. unfold bind at 1.
  destruct (serialize_monitor_cases args s) as [[a1 ->]| ->]; [|eauto].
  unfold bind at 1.
  destruct (serialize_notify_events_cases a1 s) as [[a2 ->]| ->]; [|eauto].
  unfold bind at 1.
  destruct (api_args_cases s) as [(own & -> & Hkeys)| ->]; [|eauto].
  rewrite Hkeys. unfold bind. rewrite merge_loop_address. eauto.
Qed.

(** X4. [activate()] and [deactivate()] cannot succeed: in every state each
    of them raises, and all that happened is the call itself; no request has
    been sent. *)
Theorem activate_deactivate_never_send (s : state) :
  (exists e, activate s = Raise e (record (Call "activate") s)) /\
  (exists e, deactivate s = Raise e (record (Call "deactivate") s)) /\
  count is_write (trace (final (activate s))) = count is_write (trace s) /\
  count is_write (trace (final (deactivate s))) = count is_write (trace s).
Proof.
  destruct (activate_raises s) as [e He].
  destruct (deactivate_raises s) as [e' He'].
  rewrite He, He'. simpl. unfold count.
  rewrite !List.filter_app. simpl. rewrite !app_nil_r.
  repeat split; eauto.
Qed.

(** X5. Without a monitor, as on an instance that was constructed but not
    yet created, the [api_args] property raises [AttributeError] (it calls
    [to_json()] on [None]); so do [_update] with plain fields, [activate()]
    and [deactivate()]. *)
Theorem no_monitor_no_payload (s : state) :
  is_plain (descriptor_get "monitor" (self_dict s)) = true ->
  api_args s = Raise AttributeError s /\
  (forall args,
      Dict.get "monitor" args = None ->
      Dict.get "notify_events" args = None ->
      update args s = Raise AttributeError s) /\
  activate s = Raise AttributeError (record (Call "activate") s) /\
  deactivate s = Raise AttributeError (record (Call "deactivate") s).
Proof.
  intros Hplain.
  assert (Hargs : forall s', self_dict s' = self_dict s ->
                             api_args s' = Raise AttributeError s').
  { intros s' Hs'. unfold api_args, bind, get_self, call_to_json, bind,
      instance_dict. rewrite Hs'.
    now destruct (descriptor_get "monitor" (self_dict s)). }
  assert (Hupd : forall args s', self_dict s' = self_dict s ->
                   Dict.get "monitor" args = None ->
                   Dict.get "notify_events" args = None ->
                   update args s' = Raise AttributeError s').
  { intros args s' Hs' Hm Hn.
    unfold update, serialize_monitor, serialize_notify_events.
    rewrite Hm. unfold bind at 1, ret at 1. rewrite Hn.
    unfold bind at 1, ret at 1. unfold bind at 1.
    now rewrite Hargs. }
  repeat split.
  - now apply Hargs.
  - intros args. now apply Hupd.
  - unfold activate, bind, emit. now rewrite Hupd.
  - unfold deactivate, bind, emit. now rewrite Hupd.
Qed.

Lemma no_monitor_no_payload_witness :
  let s := final (ActiveFailover.init (PStr "example.com")
                    (PStr "www.example.com") (Scenario.start [])) in
  is_plain (descriptor_get "monitor" (self_dict s)) = true /\
  api_args s = Raise AttributeError s /\
  update [("ttl", PInt 60)] s = Raise AttributeError s.
Proof.
  intros s.
  assert (H : is_plain (descriptor_get "monitor" (self_dict s)) = true)
    by reflexivity.
  destruct (no_monitor_no_payload s H) as (Hargs & Hupd & _).
  split; [exact H|]. split; [exact Hargs|].
  apply Hupd; reflexivity.
Defined.

(** ** _post: what is sent, and what is left behind when it fails *)

(** [_post] up to the request: every argument is stored, the monitor that
    was passed in has the two back-references assigned, and what remains is
    the POST and the rebuilding from its answer. *)
Lemma post_reaches_request
      address failover_mode failover_data a contact_nickname auto_recover
      notify_events syslog_server syslog_port syslog_ident syslog_facility ttl
      s d :
  heap s !! a = Some d ->
  post address failover_mode failover_data (PObj a) contact_nickname
       auto_recover notify_events syslog_server syslog_port syslog_ident
       syslog_facility ttl s =
  (do response <-
     execute (self_uri (self_dict s)) "POST"
       (PDict [("address", address); ("failover_mode", failover_mode);
               ("failover_data", failover_data);
               ("monitor", PDict (to_json d));
               ("contact_nickname", contact_nickname)]);
   do data <- getitem response "data";
   build data)
    (mkState
       (<[a := Dict.set "fqdn" (descriptor_get "fqdn" (self_dict s))
                 (Dict.set "zone" (descriptor_get "zone" (self_dict s)) d)]>
          (heap s))
       (Dict.assign
          (posted_fields address failover_mode failover_data (PObj a)
             contact_nickname auto_recover notify_events syslog_server
             syslog_port syslog_ident syslog_facility ttl)
          (self_dict s))
       (trace s) (replies s)).
Proof.
  intros Hd.
  pose proof (lookup_lt_Some _ _ _ Hd) as Hlt.
  unfold post.
  do 4 (rewrite bind_setattr_self; cbn [heap self_dict trace replies]).
  rewrite bind_get_self; cbn [heap self_dict trace replies].
  rewrite (bind_getattr _ _ (PObj a)) by apply get_set_eq.
  rewrite (bind_setattr_instance _ _ _ d) by exact Hd.
  cbn [heap self_dict trace replies].
  rewrite (bind_getattr _ _ (PObj a)) by apply get_set_eq.
  rewrite (bind_setattr_instance _ _ _ (Dict.set "zone" _ d))
    by (now apply list_lookup_insert_eq).
  cbn [heap self_dict trace replies].
  rewrite list_insert_insert_eq.
  do 8 (rewrite bind_setattr_self; cbn [heap self_dict trace replies]).
  rewrite bind_get_self; cbn [heap self_dict trace replies].
  rewrite !descriptor_get_set_ne by discriminate.
  rewrite !self_uri_set by discriminate.
  rewrite (bind_api_args a
             (Dict.set "fqdn" (descriptor_get "fqdn" (self_dict s))
                (Dict.set "zone" (descriptor_get "zone" (self_dict s)) d)));
    cbn [heap self_dict trace replies].
  - repeat (rewrite !descriptor_get_set_ne by discriminate;
            rewrite descriptor_get_set_eq).
    now rewrite !to_json_set_public by reflexivity.
  - rewrite !descriptor_get_set_ne by discriminate.
    apply descriptor_get_set_eq.
  - now apply list_lookup_insert_eq.
Qed.

(** X6. [_post] with a monitor sends exactly one request, whatever the
    service answers: a POST on [self.uri] whose payload has the five keys
    [address], [failover_mode], [failover_data], [monitor] (the [to_json()]
    mapping of the monitor passed in) and [contact_nickname]. The optional
    arguments, [auto_recover], [notify_events], the [syslog_*] fields and
    [ttl], are stored on the instance but are no part of what is sent. *)
Theorem post_sends_mandatory_fields_only
        address failover_mode failover_data a contact_nickname auto_recover
        notify_events syslog_server syslog_port syslog_ident syslog_facility
        ttl s d :
  heap s !! a = Some d ->
  trace (final (post address failover_mode failover_data (PObj a)
                     contact_nickname auto_recover notify_events syslog_server
                     syslog_port syslog_ident syslog_facility ttl s)) =
  trace s ++
  [Request (self_uri (self_dict s)) "POST"
     (PDict [("address", address); ("failover_mode", failover_mode);
             ("failover_data", failover_data);
             ("monitor", PDict (to_json d));
             ("contact_nickname", contact_nickname)])].
Proof.
  intros Hd. rewrite (post_reaches_request _ _ _ _ _ _ _ _ _ _ _ _ _ _ Hd).
  rewrite trace_bind_silent.
  - now rewrite trace_execute.
  - intros response. apply silent_bind.
    + apply readonly_silent, readonly_getitem.
    + apply silent_build.
Qed.

Lemma post_sends_mandatory_fields_only_witness :
  let m := instance_fields (PStr "HTTP") (PInt 5) PNone PNone PNone PNone PNone
                           PNone PNone in
  let s := mkState [m] [("uri", PStr "/Failover/example.com/www.example.com/")]
                   [] [] in
  heap s !! 0%nat = Some m /\
  trace (final (post (PStr "192.0.2.1") (PStr "ip") (PStr "192.0.2.2") (PObj 0)
                     (PStr "owner") (PStr "Y")
                     (PList [PStr "ip"; PStr "svc"]) PNone PNone PNone PNone
                     (PInt 60) s)) =
  [Request (PStr "/Failover/example.com/www.example.com/") "POST"
     (PDict [("address", PStr "192.0.2.1"); ("failover_mode", PStr "ip");
             ("failover_data", PStr "192.0.2.2");
             ("monitor", Scenario.monitor_json);
             ("contact_nickname", PStr "owner")])].
Proof.
  intros m s.
  assert (Hm : heap s !! 0%nat = Some m) by reflexivity.
  split; [exact Hm|].
  exact (post_sends_mandatory_fields_only
           (PStr "192.0.2.1") (PStr "ip") (PStr "192.0.2.2") 0%nat
           (PStr "owner") (PStr "Y") (PList [PStr "ip"; PStr "svc"]) PNone
           PNone PNone PNone (PInt 60) s m Hm).
Defined.

(** X7. [_post] with a monitor that is no object ([None], a number, a
    string, a list, a dict) raises [AttributeError] where it assigns the
    first back-reference. Nothing has been sent, but [_address],
    [_failover_mode], [_failover_data] and [_monitor] are already
    overwritten. *)
Theorem post_without_monitor
        address failover_mode failover_data monitor contact_nickname
        auto_recover notify_events syslog_server syslog_port syslog_ident
        syslog_facility ttl s :
  is_plain monitor = true ->
  post address failover_mode failover_data monitor contact_nickname
       auto_recover notify_events syslog_server syslog_port syslog_ident
       syslog_facility ttl s =
  Raise AttributeError
    (mkState (heap s)
       (Dict.assign
          [("_address", address); ("_failover_mode", failover_mode);
           ("_failover_data", failover_data); ("_monitor", monitor)]
          (self_dict s))
       (trace s) (replies s)).
Proof.
  intros Hplain. unfold post.
  do 4 (rewrite bind_setattr_self; cbn [heap self_dict trace replies]).
  rewrite bind_get_self; cbn [heap self_dict trace replies].
  rewrite (bind_getattr _ _ monitor) by apply get_set_eq.
  unfold bind, setattr_instance.
  destruct monitor; try discriminate; reflexivity.
Qed.

Lemma post_without_monitor_witness :
  let s := final (ActiveFailover.init (PStr "example.com")
                    (PStr "www.example.com") (Scenario.start [])) in
  is_plain PNone = true /\
  post (PStr "192.0.2.1") (PStr "ip") (PStr "192.0.2.2") PNone (PStr "owner")
       PNone PNone PNone PNone PNone PNone PNone s =
  Raise AttributeError
    (mkState []
       [("uri", PStr "/Failover/example.com/www.example.com/");
        ("_address", PStr "192.0.2.1"); ("_failover_mode", PStr "ip");
        ("_failover_data", PStr "192.0.2.2"); ("_monitor", PNone)]
       [] []).
Proof.
  intros s. split; [reflexivity|].
  now rewrite (post_without_monitor (PStr "192.0.2.1") (PStr "ip")
                 (PStr "192.0.2.2") PNone (PStr "owner") PNone PNone PNone
                 PNone PNone PNone PNone s).
Defined.

(** X8. When the session fails on the POST, [_post] passes the error on and
    rolls nothing back: the twelve fields hold the arguments, the monitor
    that was passed in has the back-references assigned, and the request is
    in the trace. *)
Theorem post_failure_keeps_assignments
        address failover_mode failover_data a contact_nickname auto_recover
        notify_events syslog_server syslog_port syslog_ident syslog_facility
        ttl s d :
  heap s !! a = Some d ->
  (replies s = [] \/ exists rest, replies s = Fault :: rest) ->
  post address failover_mode failover_data (PObj a) contact_nickname
       auto_recover notify_events syslog_server syslog_port syslog_ident
       syslog_facility ttl s =
  Raise SessionError
    (mkState
       (<[a := Dict.set "fqdn" (descriptor_get "fqdn" (self_dict s))
                 (Dict.set "zone" (descriptor_get "zone" (self_dict s)) d)]>
          (heap s))
       (Dict.assign
          (posted_fields address failover_mode failover_data (PObj a)
             contact_nickname auto_recover notify_events syslog_server
             syslog_port syslog_ident syslog_facility ttl)
          (self_dict s))
       (trace s ++
        [Request (self_uri (self_dict s)) "POST"
           (PDict [("address", address); ("failover_mode", failover_mode);
                   ("failover_data", failover_data);
                   ("monitor", PDict (to_json d));
                   ("contact_nickname", contact_nickname)])])
       (tail (replies s))).
Proof.
  intros Hd Hfault.
  rewrite (post_reaches_request _ _ _ _ _ _ _ _ _ _ _ _ _ _ Hd).
  unfold bind at 1, execute. cbn [heap self_dict trace replies].
  destruct Hfault as [-> | [rest ->]]; reflexivity.
Qed.

Lemma post_failure_keeps_assignments_witness :
  let m := instance_fields (PStr "HTTP") (PInt 5) PNone PNone PNone PNone PNone
                           PNone PNone in
  let s := mkState [m] [("uri", PStr "/Failover/example.com/www.example.com/")]
                   [] [Fault] in
  (heap s !! 0%nat = Some m /\
   (replies s = [] \/ exists rest, replies s = Fault :: rest)) /\
  descriptor_get "address"
    (self_dict
       (final (post (PStr "192.0.2.1") (PStr "ip") (PStr "192.0.2.2") (PObj 0)
                    (PStr "owner") PNone PNone PNone PNone PNone PNone PNone
                    s))) = PStr "192.0.2.1".
Proof.
  intros m s.
  assert (Hm : heap s !! 0%nat = Some m) by reflexivity.
  assert (Hf : replies s = [] \/ exists rest, replies s = Fault :: rest)
    by (right; now exists []).
  split; [split; assumption|].
  now rewrite (post_failure_keeps_assignments
                 (PStr "192.0.2.1") (PStr "ip") (PStr "192.0.2.2") 0%nat
                 (PStr "owner") PNone PNone PNone PNone PNone PNone PNone
                 s m Hm Hf).
Defined.

(** The [status] of a monitor whose [zone] is [None]. *)
Lemma status_without_zone a d s :
  heap s !! a = Some d ->
  Dict.get "zone" d = Some PNone ->
  status (PObj a) s = Raise ValueError s.
Proof.
  intros Hd Hz. unfold status, uri, instance_dict, getattr.
  cbv beta iota delta [bind]. now rewrite Hd, Hz.
Qed.

(** X9. After a creation whose answer carries a [monitor] sub-object, as the
    resource does, the [status] of the monitor the service owns cannot be
    read: it raises [ValueError] and sends nothing, in the state [_post]
    returned in. *)
Theorem status_after_post_raises
        address failover_mode failover_data a contact_nickname auto_recover
        notify_events syslog_server syslog_port syslog_ident syslog_facility
        ttl s d body data sub rest :
  heap s !! a = Some d ->
  replies s = Body (PDict body) :: rest ->
  Dict.get "data" body = Some (PDict data) ->
  Dict.get "monitor" data = Some sub ->
  accepts_kwargs sub = true ->
  exists s' owned,
    post address failover_mode failover_data (PObj a) contact_nickname
         auto_recover notify_events syslog_server syslog_port syslog_ident
         syslog_facility ttl s = Ok tt s' /\
    descriptor_get "monitor" (self_dict s') = PObj owned /\
    status (PObj owned) s' = Raise ValueError s'.
Proof.
  intros Hd Hreplies Hdata Hmon Hacc.
  destruct sub as [| | | | |sub| | |]; try discriminate.
  simpl in Hacc. apply andb_prop in Hacc as [Hacc Hi].
  apply andb_prop in Hacc as [Hparams Hp]. unfold Dict.has in Hp, Hi.
  destruct (Dict.get "protocol" sub) as [p|] eqn:Ep; [|discriminate].
  destruct (Dict.get "interval" sub) as [i|] eqn:Ei; [|discriminate].
  destruct (post_owns_unlinked_monitor
              address failover_mode failover_data a contact_nickname
              auto_recover notify_events syslog_server syslog_port
              syslog_ident syslog_facility ttl s d body data sub p i rest
              Hd Hreplies Hdata Hmon Hparams Ep Ei)
    as (s' & owned & dm & Hpost & Howned & _ & Hdm & Hzone & _).
  exists s', owned. repeat split; try assumption.
  now apply status_without_zone with dm.
Qed.

Lemma status_after_post_raises_witness :
  let m := instance_fields (PStr "HTTP") (PInt 5) PNone PNone PNone PNone PNone
                           PNone PNone in
  let sub := PDict [("protocol", PStr "HTTP"); ("interval", PInt 5)] in
  let data := [("fqdn", PStr "www.example.com"); ("monitor", sub)] in
  let s := mkState [m] [("uri", PStr "/Failover/example.com/www.example.com/")]
                   [] [Body (PDict [("data", PDict data)])] in
  (heap s !! 0%nat = Some m /\ accepts_kwargs sub = true) /\
  exists s' owned,
    post (PStr "192.0.2.1") (PStr "ip") (PStr "192.0.2.2") (PObj 0)
         (PStr "owner") PNone PNone PNone PNone PNone PNone PNone s =
    Ok tt s' /\
    descriptor_get "monitor" (self_dict s') = PObj owned /\
    status (PObj owned) s' = Raise ValueError s'.
Proof.
  intros m sub data s.
  assert (Hm : heap s !! 0%nat = Some m) by reflexivity.
  assert (Hacc : accepts_kwargs sub = true) by reflexivity.
  split; [split; assumption|].
  apply (status_after_post_raises
           (PStr "192.0.2.1") (PStr "ip") (PStr "192.0.2.2") 0%nat
           (PStr "owner") PNone PNone PNone PNone PNone PNone PNone s m
           [("data", PDict data)] data sub []); auto.
Defined.

(** ** _build: what it accepts, what it keeps *)

Lemma call_kwargs_rejects kw s :
  accepts_kwargs kw = false -> call_kwargs kw s = Raise TypeError s.
Proof.
  unfold accepts_kwargs, call_kwargs, Dict.has.
  destruct kw as [| | | | |d| | |]; try reflexivity.
  destruct (forallb is_parameter (Dict.keys d)); [|reflexivity].
  destruct (Dict.get "protocol" d); [|reflexivity].
  destruct (Dict.get "interval" d); [discriminate|reflexivity].
Qed.

Lemma call_kwargs_self kw s m s' :
  call_kwargs kw s = Ok m s' ->
  self_dict s' = self_dict s /\ trace s' = trace s /\ replies s' = replies s.
Proof.
  unfold call_kwargs.
  destruct kw as [| | | | |d| | |]; try discriminate.
  destruct (forallb is_parameter (Dict.keys d)); [|discriminate].
  destruct (Dict.get "protocol" d); [|discriminate].
  destruct (Dict.get "interval" d); [|discriminate].
  unfold HealthMonitor.init, new_object. now intros [= <- <-].
Qed.

(** X10. [_build] on a body with a [monitor] sub-object succeeds exactly
    when [HealthMonitor] accepts the sub-object as keyword arguments;
    otherwise it raises [TypeError] before anything is stored, also when the
    body has an [active] field: the state is as it was. *)
Theorem build_accepts_monitor (data : dict) (sub : pyval) (s : state) :
  Dict.get "monitor" data = Some sub ->
  ((exists s', build (PDict data) s = Ok tt s') <-> accepts_kwargs sub = true)
  /\
  (accepts_kwargs sub = false -> build (PDict data) s = Raise TypeError s).
Proof.
  intros Hmon.
  assert (Hrej : accepts_kwargs sub = false ->
                 build (PDict data) s = Raise TypeError s).
  { intros Hacc. unfold build. cbv beta iota delta [bind]. rewrite Hmon.
    now rewrite (call_kwargs_rejects sub s Hacc). }
  split; [split|exact Hrej].
  - intros [s' Hbuild]. destruct (accepts_kwargs sub) eqn:Hacc; [reflexivity|].
    rewrite (Hrej eq_refl) in Hbuild. discriminate.
  - intros Hacc.
    destruct sub as [| | | | |kw| | |]; try discriminate.
    simpl in Hacc. apply andb_prop in Hacc as [Hacc Hi].
    apply andb_prop in Hacc as [Hparams Hp]. unfold Dict.has in Hp, Hi.
    destruct (Dict.get "protocol" kw) as [p|] eqn:Ep; [|discriminate].
    destruct (Dict.get "interval" kw) as [i|] eqn:Ei; [|discriminate].
    destruct (build_owned_monitor data kw p i s Hmon Hparams Ep Ei)
      as (s' & Hbuild & _).
    now exists s'.
Qed.

Lemma build_accepts_monitor_witness :
  let sub := PDict [("protocol", PStr "HTTP")] in
  let data := [("active", PStr "Y"); ("monitor", sub)] in
  let s := Scenario.created [] in
  Dict.get "monitor" data = Some sub /\
  accepts_kwargs sub = false /\
  build (PDict data) s = Raise TypeError s.
Proof.
  intros sub data s.
  assert (Hmon : Dict.get "monitor" data = Some sub) by reflexivity.
  destruct (build_accepts_monitor data sub s Hmon) as [_ Hrej].
  split; [exact Hmon|]. split; [reflexivity|]. now apply Hrej.
Defined.

(** What [_build] leaves in [_active]. *)
Lemma build_active data s s' :
  build (PDict data) s = Ok tt s' ->
  Dict.get "_active" (self_dict s') =
  match Dict.get "active" data with
  | Some x => Some (PActive x)
  | None => Dict.get "_active" (self_dict s)
  end.
Proof.
  unfold build. cbv beta iota delta [bind].
  destruct (Dict.get "monitor" data) as [sub|] eqn:Hmon.
  - destruct (call_kwargs sub s) as [m s1|e s1] eqn:Hcall; [|discriminate].
    apply call_kwargs_self in Hcall as (Hself & _).
    cbv beta iota delta [setattr_self ret]. cbn [heap self_dict trace replies].
    rewrite get_remove_ne by discriminate.
    destruct (Dict.get "active" data) as [x|] eqn:Ha;
      cbv beta iota delta [setattr_self ret base_build];
      cbn [heap self_dict trace replies]; intros [= <-];
      cbn [self_dict]; rewrite get_base_build_other.
    + apply get_set_eq.
    + apply get_remove_eq.
    + rewrite get_set_ne by discriminate. now rewrite Hself.
    + now rewrite get_remove_ne by discriminate.
  - cbv beta iota delta [ret].
    destruct (Dict.get "active" data) as [x|] eqn:Ha;
      cbv beta iota delta [setattr_self ret base_build];
      cbn [heap self_dict trace replies]; intros [= <-];
      cbn [self_dict]; rewrite get_base_build_other.
    + apply get_set_eq.
    + apply get_remove_eq.
    + reflexivity.
    + assumption.
Qed.

(** X11. [_build] on a body without a [monitor] sub-object never fails and
    creates no monitor: the heap is as it was, the service owns the monitor
    it owned before, nothing is sent; [_active] is the wrapped [active]
    field of the body if there is one, and is left alone otherwise. *)
Theorem build_without_monitor (data : dict) (s : state) :
  Dict.get "monitor" data = None ->
  exists s',
    build (PDict data) s = Ok tt s' /\
    heap s' = heap s /\ trace s' = trace s /\ replies s' = replies s /\
    descriptor_get "monitor" (self_dict s') =
    descriptor_get "monitor" (self_dict s) /\
    Dict.get "_active" (self_dict s') =
    match Dict.get "active" data with
    | Some x => Some (PActive x)
    | None => Dict.get "_active" (self_dict s)
    end.
Proof.
  intros Hmon.
  assert (Hok : exists s',
             build (PDict data) s = Ok tt s' /\
             heap s' = heap s /\ trace s' = trace s /\
             replies s' = replies s /\
             descriptor_get "monitor" (self_dict s') =
             descriptor_get "monitor" (self_dict s)).
  { unfold build. cbv beta iota delta [bind]. rewrite Hmon.
    cbv beta iota delta [ret].
    destruct (Dict.get "active" data) as [x|] eqn:Ha;
      cbv beta iota delta [setattr_self ret base_build];
      cbn [heap self_dict trace replies];
      eexists; (split; [reflexivity|]); cbn [heap self_dict trace replies];
      repeat split; unfold descriptor_get; rewrite get_base_build_other.
    - now rewrite get_set_ne by discriminate.
    - now rewrite get_remove_ne by discriminate.
    - reflexivity.
    - assumption. }
  destruct Hok as (s' & Hbuild & Hheap & Htrace & Hreplies & Howned).
  exists s'. repeat split; try assumption.
  now apply build_active.
Qed.

Lemma build_without_monitor_witness :
  let data := [("ttl", PInt 60); ("active", PStr "N")] in
  let s := Scenario.created [] in
  Dict.get "monitor" data = None /\
  exists s',
    build (PDict data) s = Ok tt s' /\
    heap s' = heap s /\
    descriptor_get "monitor" (self_dict s') = PObj 1 /\
    Dict.get "_active" (self_dict s') = Some (PActive (PStr "N")).
Proof.
  intros data s.
  assert (Hmon : Dict.get "monitor" data = None) by reflexivity.
  split; [exact Hmon|].
  destruct (build_without_monitor data s Hmon)
    as (s' & Hbuild & Hheap & _ & _ & Howned & Hactive).
  exists s'. repeat split; assumption.
Defined.

(** ** The active property *)

(** X12. Reading [active] gives what the service says now, not what was
    stored: when the fetch goes through and the data has an [active] field,
    the result is that field wrapped in [Active], whatever [_active] held
    before. When the data has no [active] field, the result is the value
    stored earlier, and [AttributeError] is raised, after the request, when
    there is none. *)
Theorem active_get_fresh_or_stale (s s1 : state) (body data : dict)
                                  (rest : list reply) :
  replies s = Body (PDict body) :: rest ->
  Dict.get "data" body = Some (PDict data) ->
  base_get s = Ok tt s1 ->
  active_get s =
  match Dict.get "active" data with
  | Some x => Ok (PActive x) s1
  | None =>
      match Dict.get "_active" (self_dict s) with
      | Some v => Ok v s1
      | None => Raise AttributeError s1
      end
  end.
Proof.
  intros Hreplies Hdata Hbase.
  assert (Hbuild : Dict.get "_active" (self_dict s1) =
                   match Dict.get "active" data with
                   | Some x => Some (PActive x)
                   | None => Dict.get "_active" (self_dict s)
                   end).
  { revert Hbase. unfold base_get.
    rewrite bind_get_self. erewrite bind_execute by exact Hreplies.
    rewrite (bind_getitem _ _ _ _ _ Hdata).
    intros Hbuild. now apply build_active in Hbuild. }
  unfold active_get. unfold bind at 1. rewrite Hbase.
  rewrite bind_get_self. unfold getattr. rewrite Hbuild.
  destruct (Dict.get "active" data); [reflexivity|].
  now destruct (Dict.get "_active" (self_dict s)).
Qed.

Lemma active_get_fresh_or_stale_witness :
  let data := [("address", PStr "192.0.2.9")] in
  let body := [("data", PDict data)] in
  let s := Scenario.created [Body (PDict body)] in
  let s1 := final (base_get s) in
  (replies s = Body (PDict body) :: [] /\
   Dict.get "data" body = Some (PDict data) /\
   base_get s = Ok tt s1) /\
  active_get s = Ok (PActive (PStr "Y")) s1.
Proof.
  intros data body s s1.
  assert (Hreplies : replies s = Body (PDict body) :: []) by reflexivity.
  assert (Hdata : Dict.get "data" body = Some (PDict data)) by reflexivity.
  assert (Hbase : base_get s = Ok tt s1) by reflexivity.
  split; [auto|].
  now rewrite (active_get_fresh_or_stale s s1 body data [] Hreplies Hdata
                 Hbase).
Defined.

(** X13. When the read that the assignment to [active] performs fails, the
    assignment fails with the same exception in the same state, and neither
    [activate()] nor [deactivate()] is called. *)
Theorem active_set_read_failure (s s1 : state) (value : pyval) (e : exn) :
  in_tuple value activate_values = true \/
  in_tuple value deactivate_values = true ->
  active_get s = Raise e s1 ->
  active_set value s = Raise e s1.
Proof.
  intros Hvalue Hget. unfold active_set.
  destruct (in_tuple value deactivate_values) eqn:Hoff.
  - cbv beta iota delta [bind]. now rewrite Hget.
  - destruct Hvalue as [Hon|Hoff']; [|discriminate].
    rewrite Hon. cbv beta iota delta [bind ret]. now rewrite Hget.
Qed.

Lemma active_set_read_failure_witness :
  let s := Scenario.created [Fault] in
  let s1 := final (active_get s) in
  ((in_tuple (PStr "N") activate_values = true \/
    in_tuple (PStr "N") deactivate_values = true) /\
   active_get s = Raise SessionError s1) /\
  active_set (PStr "N") s = Raise SessionError s1 /\
  count (is_call "deactivate") (trace s1) = 0%nat.
Proof.
  intros s s1.
  assert (Hvalue : in_tuple (PStr "N") activate_values = true \/
                   in_tuple (PStr "N") deactivate_values = true)
    by (right; reflexivity).
  assert (Hget : active_get s = Raise SessionError s1) by reflexivity.
  split; [auto|]. split; [|reflexivity].
  exact (active_set_read_failure s s1 (PStr "N") SessionError Hvalue Hget).
Defined.

(** ** The resource path *)

Module UriFacts.

Lemma keeps_same_self {A} (m : M A) :
  (forall s, self_dict (final (m s)) = self_dict s) -> keeps_uri m.
Proof. intros H s. now rewrite H. Qed.

Lemma keeps_readonly {A} (m : M A) : readonly m -> keeps_uri m.
Proof. intros H. apply keeps_same_self. intros s. now rewrite H. Qed.

Lemma keeps_ret {A} (a : A) : keeps_uri (ret a).
Proof. intros s. reflexivity. Qed.

Lemma keeps_raise {A} e : keeps_uri (@raise A e).
Proof. intros s. reflexivity. Qed.

Lemma keeps_bind {A B} (m : M A) (k : A -> M B) :
  keeps_uri m -> (forall a, keeps_uri (k a)) -> keeps_uri (bind m k).
Proof.
  intros Hm Hk s. unfold bind. specialize (Hm s).
  destruct (m s) as [a s'|e s']; simpl in *; [|assumption].
  now rewrite Hk.
Qed.

Lemma keeps_setattr_private f x :
  keeps_uri (setattr_self (String "_"%char f) x).
Proof. intros s. simpl. apply get_set_ne. discriminate. Qed.

Lemma keeps_setattr_instance v name x : keeps_uri (setattr_instance v name x).
Proof.
  apply keeps_same_self. intros s. unfold setattr_instance.
  destruct v; try reflexivity. now destruct (heap s !! addr).
Qed.

Lemma keeps_execute path method args : keeps_uri (execute path method args).
Proof.
  apply keeps_same_self. intros s. unfold execute.
  now destruct (replies s) as [|[r|] rest].
Qed.

Lemma keeps_emit e : keeps_uri (emit e).
Proof. intros s. reflexivity. Qed.

Lemma keeps_call_kwargs kw : keeps_uri (call_kwargs kw).
Proof.
  apply keeps_same_self. intros s. unfold call_kwargs.
  destruct kw; try reflexivity.
  destruct (forallb is_parameter (Dict.keys entries)); [|reflexivity].
  destruct (Dict.get "protocol" entries); [|reflexivity].
  now destruct (Dict.get "interval" entries).
Qed.

Lemma keeps_base_build data : keeps_uri (base_build data).
Proof.
  intros s. simpl. generalize (self_dict s). unfold Dict.assign.
  induction data as [|[k v] data IH]; intros sd; simpl; [reflexivity|].
  rewrite IH. apply get_set_ne. discriminate.
Qed.

Lemma keeps_build data : keeps_uri (build data).
Proof.
  unfold build. destruct data; try apply keeps_raise.
  apply keeps_bind.
  - destruct (Dict.get "monitor" entries); [|apply keeps_ret].
    apply keeps_bind; [apply keeps_call_kwargs|]. intros m.
    apply keeps_bind; [apply keeps_setattr_private|]. intros _.
    apply keeps_ret.
  - intros d1. apply keeps_bind; [|intros d2; apply keeps_base_build].
    destruct (Dict.get "active" d1); [|apply keeps_ret].
    apply keeps_bind; [apply keeps_setattr_private|]. intros _.
    apply keeps_ret.
Qed.

Lemma keeps_fetch path method args :
  keeps_uri (do response <- execute path method args;
             do data <- getitem response "data";
             build data).
Proof.
  apply keeps_bind; [apply keeps_execute|]. intros response.
  apply keeps_bind; [apply keeps_readonly, readonly_getitem|].
  intros data. apply keeps_build.
Qed.

Lemma keeps_update a : keeps_uri (update a).
Proof.
  intros s. destruct (update_always_raises a s) as [e ->]. reflexivity.
Qed.

Lemma keeps_active_get : keeps_uri active_get.
Proof.
  unfold active_get, base_get.
  apply keeps_bind.
  - apply keeps_bind; [apply keeps_readonly, readonly_get_self|].
    intros d. apply keeps_fetch.
  - intros _. apply keeps_readonly. auto with effects.
Qed.

End UriFacts.

Import UriFacts.

(** X14. Once [__init__] has stored it, no method changes the resource
    path: [_post], [_build], [_update], [activate()], [deactivate()] and
    reading or assigning [active] all leave the [uri] attribute as it was,
    whether they return or raise, and whatever the service answers (a [uri]
    field in a response becomes the tracked field [_uri]). *)
Theorem resource_path_is_fixed :
  (forall address failover_mode failover_data monitor contact_nickname
          auto_recover notify_events syslog_server syslog_port syslog_ident
          syslog_facility ttl,
      keeps_uri (post address failover_mode failover_data monitor
                      contact_nickname auto_recover notify_events
                      syslog_server syslog_port syslog_ident syslog_facility
                      ttl)) /\
  (forall data, keeps_uri (build data)) /\
  (forall args, keeps_uri (update args)) /\
  keeps_uri activate /\
  keeps_uri deactivate /\
  keeps_uri active_get /\
  (forall value, keeps_uri (active_set value)).
Proof.
  assert (Hact : keeps_uri activate).
  { unfold activate. apply keeps_bind; [apply keeps_emit|].
    intros _. apply keeps_update. }
  assert (Hdeact : keeps_uri deactivate).
  { unfold deactivate. apply keeps_bind; [apply keeps_emit|].
    intros _. apply keeps_update. }
  assert (Hread : forall f : pyval -> bool,
             keeps_uri (do a <- active_get; ret (f a))).
  { intros f. apply keeps_bind; [apply keeps_active_get|].
    intros a. apply keeps_ret. }
  repeat split; try assumption.
  - intros. unfold post.
    repeat first
      [ apply keeps_bind; [apply keeps_setattr_private|intros _]
      | apply keeps_bind; [apply keeps_setattr_instance|intros _]
      | apply keeps_bind; [apply keeps_readonly, readonly_get_self|intros ?]
      | apply keeps_bind; [apply keeps_readonly, readonly_getattr|intros ?]
      | apply keeps_bind; [apply keeps_readonly, readonly_api_args|intros ?]
      | apply keeps_fetch ].
  - apply keeps_build.
  - apply keeps_update.
  - apply keeps_active_get.
  - intros value. unfold active_set.
    apply keeps_bind.
    + destruct (in_tuple value deactivate_values);
        [apply Hread|apply keeps_ret].
    + intros [|]; [exact Hdeact|].
      apply keeps_bind.
      * destruct (in_tuple value activate_values);
          [apply (Hread (fun a => negb (truthy a)))|apply keeps_ret].
      * intros [|]; [exact Hact|apply keeps_ret].
Qed.

(** ** HealthMonitor.status when the answer is not as expected *)

(** X16. With [zone] and [fqdn] set, [status] sends its GET in any case; a
    failure of the session is passed on, and an answer without [data], or
    whose data has no [status], raises [KeyError]. The request has been made
    and the reply consumed by then. *)
Theorem status_unexpected_answer (s : state) (a : nat) (d : dict)
                                 (z f : string) :
  heap s !! a = Some d ->
  Dict.get "zone" d = Some (PStr z) ->
  Dict.get "fqdn" d = Some (PStr f) ->
  let sent := mkState (heap s) (self_dict s)
                (trace s ++
                 [Request (PStr ("/Failover/" +:+ z +:+ "/" +:+ f +:+ "/"))
                          "GET" PNone])
                (tail (replies s)) in
  (replies s = [] \/ (exists rest, replies s = Fault :: rest) ->
   status (PObj a) s = Raise SessionError sent) /\
  (forall body rest,
      replies s = Body (PDict body) :: rest ->
      Dict.get "data" body = None ->
      status (PObj a) s = Raise KeyError sent) /\
  (forall body data rest,
      replies s = Body (PDict body) :: rest ->
      Dict.get "data" body = Some (PDict data) ->
      Dict.get "status" data = None ->
      status (PObj a) s = Raise KeyError sent).
Proof.
  intros Hheap Hzone Hfqdn sent. subst sent.
  unfold status, uri, instance_dict, getattr.
  cbv beta iota delta [bind]. rewrite Hheap, Hzone.
  cbv beta iota delta [ret is_None]. rewrite Hfqdn.
  cbv beta iota delta [format_uri ret py_str execute].
  repeat split.
  - intros [-> | [rest ->]]; reflexivity.
  - intros body rest -> Hdata. cbv beta iota zeta delta [getitem tail].
    now rewrite Hdata.
  - intros body data rest -> Hdata Hstatus.
    cbv beta iota zeta delta [getitem ret tail]. rewrite Hdata.
    cbv beta iota. now rewrite Hstatus.
Qed.

Lemma status_unexpected_answer_witness :
  let d := Dict.set "fqdn" (PStr "www.example.com")
             (Dict.set "zone" (PStr "example.com")
                (instance_fields (PStr "HTTP") (PInt 5) PNone PNone PNone PNone
                                 PNone PNone PNone)) in
  let body := [("data", PDict [("active", PStr "Y")])] in
  let s := mkState [d] [] [] [Body (PDict body)] in
  (heap s !! 0%nat = Some d /\
   Dict.get "zone" d = Some (PStr "example.com") /\
   Dict.get "fqdn" d = Some (PStr "www.example.com")) /\
  status (PObj 0) s =
  Raise KeyError
    (mkState [d] [] [Request (PStr "/Failover/example.com/www.example.com/")
                             "GET" PNone] []).
Proof.
  intros d body s.
  assert (Hheap : heap s !! 0%nat = Some d) by reflexivity.
  assert (Hzone : Dict.get "zone" d = Some (PStr "example.com"))
    by reflexivity.
  assert (Hfqdn : Dict.get "fqdn" d = Some (PStr "www.example.com"))
    by reflexivity.
  split; [auto|].
  destruct (status_unexpected_answer s 0 d _ _ Hheap Hzone Hfqdn)
    as (_ & _ & Hstatus).
  now apply (Hstatus body [("active", PStr "Y")] []).
Defined.
